(** * The cell-library search driver of [scripts/main.py]

    A shallow embedding of the candidate generator
    ([generate_random_genlib]), the cost evaluator bridge ([estimate_cost])
    and the search loop ([main]), followed by the properties of the
    design document that are stated about them.

    Python floats are IEEE binary64 values and are represented by
    [spec_float]; Python exceptions are values of [exn] carried by the
    result type [res]; the pseudo-random generator of the [random] module
    and the external tools are represented by the answers they give. *)

From Stdlib Require Import ZArith Ascii Floats.SpecFloat.
From stdpp Require Import base list strings pretty.

Open Scope string_scope.

(** ** Floats *)

Definition float : Type := spec_float.

(** [1.0], the neutral padding value. *)
Definition float_one : float := S754_finite false 4503599627370496 (-52).
(** [0.0] *)
Definition float_zero : float := S754_zero false.
(** [float('inf')] *)
Definition float_inf : float := S754_infinity false.

Definition is_nan (f : float) : bool :=
  match f with S754_nan => true | _ => false end.

(** ** Exceptions and results *)

(** [TimeoutError] is the exception raised by [timeout_handler];
    [OSError] stands for the errors of the operating system other than a
    missing file. *)
Inductive exn : Set :=
| KeyError | TypeError | ValueError | OverflowError | ZeroDivisionError
| IndexError | FileNotFoundError | OSError | TimeoutError.

#[global] Instance exn_eq_dec : EqDecision exn.
Proof. solve_decision. Defined.

Inductive res (A : Type) : Type :=
| Ok (a : A)
| Raise (e : exn).
Arguments Ok {A} a.
Arguments Raise {A} e.

#[global] Instance res_ret : MRet res := λ A a, Ok a.
#[global] Instance res_bind : MBind res := λ A B f m,
  match m with
  | Ok a => f a
  | Raise e => Raise e
  end.

Definition of_option {A} (e : exn) (o : option A) : res A :=
  match o with
  | Some a => Ok a
  | None => Raise e
  end.

(** ** Values decoded by [json.load] *)

#[local] Unset Elimination Schemes.
Inductive json : Type :=
| JNull
| JBool (b : bool)
| JInt (z : Z)
| JFloat (f : float)
| JStr (s : string)
| JArr (items : list json)
| JObj (items : list (string * json)).
#[local] Set Elimination Schemes.

(** [float(int)]: the nearest binary64 value, ties to even; [None] is
    the OverflowError of an integer beyond the range. *)
Definition float_of_int (z : Z) : option float :=
  match binary_normalize 53 1024 z 0 false with
  | S754_infinity _ => None
  | f => Some f
  end.

(** The builtins of the Python runtime the program calls on its data
    and that are left open here: [float(str)] ([None]: ValueError), and
    the text an f-string gives for a float and for a value that is not a
    string. *)
Class PyRuntime : Type := {
  float_of_str : string → option float;
  float_repr : float → string;
  json_str : json → string;
}.

Definition nl : string := String "010"%char "".

(** Lookup in the items of a dict. *)
Fixpoint assoc (k : string) (items : list (string * json)) : option json :=
  match items with
  | [] => None
  | (k', v) :: rest => if String.eqb k k' then Some v else assoc k rest
  end.

(** [l[z]] on a sequence, with Python's negative indices. *)
Definition py_index {A} (l : list A) (z : Z) : res A :=
  let n := Z.of_nat (length l) in
  let i := if (z <? 0)%Z then (z + n)%Z else z in
  if ((0 <=? i)%Z && (i <? n)%Z)%bool
  then of_option IndexError (l !! Z.to_nat i)
  else Raise IndexError.

Definition chars (s : string) : list json :=
  (λ c, JStr (String c "")) <$> String.list_ascii_of_string s.

(** [v[key]] *)
Definition getitem (v key : json) : res json :=
  match v with
  | JObj items =>
      match key with
      | JStr k => of_option KeyError (assoc k items)
      | JArr _ | JObj _ => Raise TypeError
      | _ => Raise KeyError
      end
  | JArr l =>
      match key with
      | JInt z => py_index l z
      | JBool b => py_index l (if b then 1 else 0)%Z
      | _ => Raise TypeError
      end
  | JStr s =>
      match key with
      | JInt z => py_index (chars s) z
      | JBool b => py_index (chars s) (if b then 1 else 0)%Z
      | _ => Raise TypeError
      end
  | _ => Raise TypeError
  end.

(** [len(v)] *)
Definition py_len (v : json) : res nat :=
  match v with
  | JArr l => Ok (length l)
  | JObj items => Ok (length items)
  | JStr s => Ok (String.length s)
  | _ => Raise TypeError
  end.

(** The elements [for x in v] goes through. *)
Definition py_iter (v : json) : res (list json) :=
  match v with
  | JArr l => Ok l
  | JObj items => Ok ((λ kv, JStr kv.1) <$> items)
  | JStr s => Ok (chars s)
  | _ => Raise TypeError
  end.

Section Runtime.
Context `{PyRuntime}.

(** [float(v)] *)
Definition py_float (v : json) : res float :=
  match v with
  | JFloat f => Ok f
  | JInt z => of_option OverflowError (float_of_int z)
  | JBool b => Ok (if b then float_one else float_zero)
  | JStr s => of_option ValueError (float_of_str s)
  | _ => Raise TypeError
  end.

(** [f"{v}"] *)
Definition py_str (v : json) : string :=
  match v with
  | JStr s => s
  | _ => json_str v
  end.

End Runtime.

(** ** The candidate generator *)

Definition num_required_attributes : nat := 7.

(** [attr in ['cell_name', 'cell_type']] *)
Definition is_reserved (attr : json) : bool :=
  match attr with
  | JStr s => (String.eqb s "cell_name" || String.eqb s "cell_type")%bool
  | _ => false
  end.

(** The [while len(cell_attributes) < num_required_attributes] loop; it
    appends one value per turn, so seven turns are enough. *)
Fixpoint pad_loop (fuel : nat) (cell_attributes : list float) : list float :=
  match fuel with
  | 0 => cell_attributes
  | S fuel' =>
      if (length cell_attributes <? num_required_attributes)%nat
      then pad_loop fuel' (cell_attributes ++ [float_one])%list
      else cell_attributes
  end.

Definition pad_attributes (cell_attributes : list float) : list float :=
  pad_loop num_required_attributes cell_attributes.

(** [itertools.permutations]: every position in turn as the head,
    followed by the permutations of the other positions. *)
Fixpoint selections {A} (l : list A) : list (A * list A) :=
  match l with
  | [] => []
  | x :: xs => (x, xs) :: ((λ p, (p.1, x :: p.2)) <$> selections xs)
  end.

Fixpoint permutations_of {A} (n : nat) (l : list A) : list (list A) :=
  match n with
  | 0 => [[]]
  | S n' => p ← selections l; (cons p.1) <$> permutations_of n' p.2
  end.

Definition itertools_permutations {A} (l : list A) : list (list A) :=
  permutations_of (length l) l.

(** [a % b] on non-negative integers. *)
Definition py_mod (a b : nat) : res nat :=
  if (b =? 0)%nat then Raise ZeroDivisionError else Ok (a mod b).

(** [l[i]] for a non-negative index. *)
Definition list_get {A} (l : list A) (i : nat) : res A :=
  of_option IndexError (l !! i).

(** [l[i] = v] for a non-negative index. *)
Definition list_set {A} (l : list A) (i : nat) (v : A) : res (list A) :=
  if (i <? length l)%nat then Ok (<[i:=v]> l) else Raise IndexError.

(** The state of the [random] module: the numbers it is going to draw. *)
Definition rng : Type := list nat.

(** [random._randbelow(n)] for [n > 0]. *)
Definition randbelow (n : nat) (g : rng) : nat * rng :=
  (hd 0 g mod n, tl g).

(** [x[i], x[j] = x[j], x[i]] *)
Definition swap {A} (x : list A) (i j : nat) : res (list A) :=
  xj ← list_get x j;
  xi ← list_get x i;
  x ← list_set x i xj;
  list_set x j xi.

(** [random.shuffle]:
    [for i in reversed(range(1, len(x))): j = randbelow(i + 1); swap] *)
Fixpoint shuffle_from {A} (i : nat) (x : list A) (g : rng) : res (list A * rng) :=
  match i with
  | 0 => Ok (x, g)
  | S i' =>
      let '(j, g) := randbelow (S i) g in
      x ← swap x i j;
      shuffle_from i' x g
  end.

Definition shuffle {A} (x : list A) (g : rng) : res (list A * rng) :=
  shuffle_from (length x - 1) x g.

(** The seven values bound after the shuffle. *)
Record slots : Type := {
  area : float;
  rise_block_delay : float;
  fall_block_delay : float;
  rise_fanout_delay : float;
  fall_fanout_delay : float;
  input_load : float;
  max_load : float;
}.

Definition slot_values (s : slots) : list float :=
  [area s; rise_block_delay s; fall_block_delay s; rise_fanout_delay s;
   fall_fanout_delay s; input_load s; max_load s].

Definition bind_slots (cell_attributes : list float) : res slots :=
  a ← list_get cell_attributes 0;
  rb ← list_get cell_attributes 1;
  fb ← list_get cell_attributes 2;
  rf ← list_get cell_attributes 3;
  ff ← list_get cell_attributes 4;
  il ← list_get cell_attributes 5;
  ml ← list_get cell_attributes 6;
  Ok {| area := a; rise_block_delay := rb; fall_block_delay := fb;
        rise_fanout_delay := rf; fall_fanout_delay := ff;
        input_load := il; max_load := ml |}.

(** The closed table from cell type to boolean expression. *)
Definition gate_function (cell_type : json) : option string :=
  match cell_type with
  | JStr t =>
      if String.eqb t "and" then Some "Y=A*B"
      else if String.eqb t "or" then Some "Y=A+B"
      else if String.eqb t "xor" then Some "Y=A*!B+!A*B"
      else if String.eqb t "nand" then Some "Y=!(A*B)"
      else if String.eqb t "nor" then Some "Y=!(A+B)"
      else if String.eqb t "not" then Some "Y=!A"
      else if String.eqb t "buf" then Some "Y=A"
      else if String.eqb t "xnor" then Some "Y=!(A^B)"
      else None
  | _ => None
  end.

(** One entry of the candidate library file. *)
Record gate : Type := {
  gate_name : json;
  gate_expr : string;
  gate_slots : slots;
}.

Section Generator.
Context `{PyRuntime}.

(** [[float(cell[attr]) for attr in attributes
      if attr not in ['cell_name', 'cell_type']]] *)
Fixpoint collect_attributes (cell : json) (attrs : list json) : res (list float) :=
  match attrs with
  | [] => Ok []
  | attr :: rest =>
      if is_reserved attr then collect_attributes cell rest
      else
        v ← getitem cell attr;
        f ← py_float v;
        fs ← collect_attributes cell rest;
        Ok (f :: fs)
  end.

(** Lines 47 to 63: from the cell to its seven bound values. *)
Definition cell_slots (attributes : json) (iteration : nat) (cell : json)
    (g : rng) : res (slots * rng) :=
  attrs ← py_iter attributes;
  cell_attributes ← collect_attributes cell attrs;
  let cell_attributes := pad_attributes cell_attributes in
  let all_permutations := itertools_permutations cell_attributes in
  k ← py_mod iteration (length all_permutations);
  chosen_permutation ← list_get all_permutations k;
  '(cell_attributes, g) ← shuffle cell_attributes g;
  s ← bind_slots cell_attributes;
  Ok (s, g).

(** The two [genlib_file.write] calls of one entry. *)
Definition gate_line (e : gate) : string :=
  "GATE " +:+ py_str (gate_name e) +:+ " "
    +:+ float_repr (area (gate_slots e)) +:+ " " +:+ gate_expr e +:+ ";" +:+ nl.

Definition pin_line (e : gate) : string :=
  let s := gate_slots e in
  "    PIN * NONINV " +:+ float_repr (input_load s) +:+ " "
    +:+ float_repr (max_load s) +:+ " "
    +:+ float_repr (rise_block_delay s) +:+ " "
    +:+ float_repr (rise_fanout_delay s) +:+ " "
    +:+ float_repr (fall_block_delay s) +:+ " "
    +:+ float_repr (fall_fanout_delay s) +:+ nl.

Definition gate_writes (e : gate) : list string := [gate_line e; pin_line e].

(** The text written to the file, one element per [write] call. *)
Definition genlib_writes (entries : list gate) : list string :=
  e ← entries; gate_writes e.

(** The body of [for cell in data['cells']]: the entry the cell adds to
    the file, if any. *)
Definition process_cell (attributes : json) (iteration : nat) (cell : json)
    (g : rng) : res (option gate * rng) :=
  cell_name ← getitem cell (JStr "cell_name");
  cell_type ← getitem cell (JStr "cell_type");
  '(s, g) ← cell_slots attributes iteration cell g;
  match gate_function cell_type with
  | Some function =>
      Ok (Some {| gate_name := cell_name; gate_expr := function;
                  gate_slots := s |}, g)
  | None => Ok (None, g)
  end.

Fixpoint process_cells (attributes : json) (iteration : nat)
    (cells : list json) (g : rng) : res (list gate * rng) :=
  match cells with
  | [] => Ok ([], g)
  | cell :: rest =>
      '(e, g) ← process_cell attributes iteration cell g;
      '(es, g) ← process_cells attributes iteration rest g;
      Ok ((option_list e ++ es)%list, g)
  end.

(** [generate_random_genlib(data, iteration)]: the entries written to
    [release/genlib/lib.genlib] and the generator state afterwards.  The
    file is opened for writing under the fixed [release] tree, which the
    embedding takes to exist. *)
Definition generate_random_genlib (data : json) (iteration : nat) (g : rng)
    : res (list gate * rng) :=
  information ← getitem data (JStr "information");
  attributes ← getitem information (JStr "attributes");
  num_attributes ← py_len attributes;
  cells ← getitem data (JStr "cells");
  cells ← py_iter cells;
  process_cells attributes iteration cells g.

Definition genlib_filename : string := "release/genlib/lib.genlib".

End Generator.

(** ** Text helpers of the cost evaluator bridge

    A text is a sequence of code points below 256. *)

(** [str.isspace] on one character. *)
Definition is_space (c : ascii) : bool :=
  let n := nat_of_ascii c in
  ((9 <=? n)%nat && (n <=? 13)%nat || (28 <=? n)%nat && (n <=? 32)%nat
   || (n =? 133)%nat || (n =? 160)%nat)%bool.

Fixpoint lstrip (s : string) : string :=
  match s with
  | String c s' => if is_space c then lstrip s' else s
  | "" => ""
  end.

Fixpoint rstrip (s : string) : string :=
  match s with
  | String c s' =>
      match rstrip s' with
      | "" => if is_space c then "" else String c ""
      | t => String c t
      end
  | "" => ""
  end.

(** [s.strip()] *)
Definition strip (s : string) : string := rstrip (lstrip s).

(** [file.readline()] on a file opened in text mode: the text up to the
    first line end (a line feed, a carriage return, or both), which is
    read as a line feed. *)
Fixpoint readline (s : string) : string :=
  match s with
  | String c s' =>
      if (Ascii.eqb c "010" || Ascii.eqb c "013")%bool then nl
      else String c (readline s')
  | "" => ""
  end.

(** [needle in hay] *)
Fixpoint contains (needle hay : string) : bool :=
  (String.prefix needle hay
   || match hay with
      | String _ hay' => contains needle hay'
      | "" => false
      end)%bool.

(** [s.split(c)] for a one-character separator. *)
Fixpoint split_on (c : ascii) (s : string) : list string :=
  match s with
  | "" => [""]
  | String a s' =>
      let r := split_on c s' in
      if Ascii.eqb a c then "" :: r
      else match r with
           | h :: t => String a h :: t
           | [] => [String a ""]
           end
  end.

(** ** The world around the search loop *)

(** Where the alarm set by [signal.alarm(TIMEOUT)] can find an
    iteration: in the generator, in one of the three external calls, or
    between the update of [best_cost] and the renames. *)
Inductive stage : Set :=
| InGenerate | InMap | InConvert | InEvaluate | InPromote.

#[global] Instance stage_eq_dec : EqDecision stage.
Proof. solve_decision. Defined.

(** What the outside gives to one iteration. *)
Record iter_env : Type := {
  alarm : option stage;
  abc_returncode : Z;
  convert_returncode : Z;
  cost_returncode : Z;
  cost_file : option string;
  rename_netlist_error : option exn;
  rename_genlib_error : option exn;
}.

Record arguments : Type := {
  netlist : string;
  library : string;
  cost_function : string;
  output : string;
}.

(** What the outside gives to a run: the decoded library file (or the
    exception raised by reading it), the first conversion, every
    iteration, the generator state and the clock. *)
Record world : Type := {
  library_data : res json;
  setup_alarm : bool;
  convert1_returncode : Z;
  iter : nat → iter_env;
  seed : rng;
  elapsed_time : float;
}.

Inductive message : Type :=
| Text (s : string)
| MsgIteration (n : nat)
| MsgSkip (n : nat) (why : string)
| MsgCost (n : nat) (cost : float)
| MsgNewBest (best_netlist : string) (cost : float) (best_genlib : string)
| MsgBestNetlist (best_netlist : string) (cost : float)
| MsgBestGenlib (best_genlib : string)
| MsgElapsed (seconds : float).

Inductive event : Type :=
| Print (m : message)
| Exec (command : string)
| WriteFile (path : string) (writes : list string)
| Rename (src dst : string).

Record state : Type := {
  best_cost : float;
  gen : rng;
  log : list event;
}.

(** ** State and exceptions *)

Definition M (A : Type) : Type := state → state * res A.

#[global] Instance M_ret : MRet M := λ A a st, (st, Ok a).
#[global] Instance M_bind : MBind M := λ A B f m st,
  match m st with
  | (st', Ok a) => f a st'
  | (st', Raise e) => (st', Raise e)
  end.

Definition raise {A} (e : exn) : M A := λ st, (st, Raise e).

Definition lift {A} (r : res A) : M A := λ st, (st, r).

Definition emit (ev : event) : M unit := λ st,
  ({| best_cost := best_cost st; gen := gen st; log := (log st ++ [ev])%list |}, Ok tt).

Definition print (m : message) : M unit := emit (Print m).

Definition get_best_cost : M float := λ st, (st, Ok (best_cost st)).

Definition set_best_cost (c : float) : M unit := λ st,
  ({| best_cost := c; gen := gen st; log := log st |}, Ok tt).

(** The alarm, when it is due at stage [s]. *)
Definition at_stage (e : iter_env) (s : stage) : M unit :=
  if decide (alarm e = Some s) then raise TimeoutError else mret tt.

(** [subprocess.run(command, shell=True).returncode] *)
Definition subprocess_run (command : string) (interrupted : bool)
    (returncode : Z) : M Z :=
  emit (Exec command);;
  if interrupted then raise TimeoutError else mret returncode.

(** [os.rename(src, dst)] *)
Definition os_rename (src dst : string) (error : option exn) : M unit :=
  match error with
  | Some e => raise e
  | None => emit (Rename src dst)
  end.

Definition interrupted_at (e : iter_env) (s : stage) : bool :=
  bool_decide (alarm e = Some s).

(** ** The steps of one iteration *)

Definition convert_netlist_to_abc_format (w : world) (original_netlist : string)
    : M (option string) :=
  let output_filename := "release/net_m/design_m.v" in
  let convert_command :=
    "python3 scripts/convert_netlist_1.py " +:+ original_netlist +:+ " "
      +:+ output_filename in
  returncode ← subprocess_run convert_command (setup_alarm w) (convert1_returncode w);
  if (returncode =? 0)%Z then mret (Some output_filename)
  else print (Text "Error running convert_netlist_1.py");; mret None.

Definition abc_script (netlist_input genlib netlist_output : string) : string :=
  nl +:+ "    read " +:+ netlist_input +:+ nl
  +:+ "    strash" +:+ nl
  +:+ "    " +:+ nl
  +:+ "    balance" +:+ nl
  +:+ "    rewrite" +:+ nl
  +:+ "    rewrite -z" +:+ nl
  +:+ "    resub" +:+ nl
  +:+ "    refactor" +:+ nl
  +:+ "    balance" +:+ nl
  +:+ "    fraig" +:+ nl
  +:+ "    compress" +:+ nl
  +:+ "    b" +:+ nl
  +:+ "    resyn" +:+ nl
  +:+ "    resyn2" +:+ nl
  +:+ "    resyn3" +:+ nl
  +:+ "    dc2" +:+ nl
  +:+ "    compress2" +:+ nl
  +:+ "    dch" +:+ nl
  +:+ "    dc2" +:+ nl
  +:+ "    " +:+ nl
  +:+ "    read_library " +:+ genlib +:+ nl
  +:+ "    map" +:+ nl
  +:+ "    " +:+ nl
  +:+ "    write_verilog " +:+ netlist_output +:+ nl
  +:+ "    ".

Definition create_abc_script (inputfile genlib : string) : M (string * string) :=
  let netlist_input := inputfile in
  let netlist_output := "release/net_mapped/netlist_mapped.v" in
  let script_filename := "release/optimize.abc" in
  emit (WriteFile script_filename [abc_script netlist_input genlib netlist_output]);;
  mret (script_filename, netlist_output).

Definition run_abc_script (e : iter_env) (script_filename : string) : M bool :=
  let abc_command := "./abc/abc -f " +:+ script_filename in
  returncode ← subprocess_run abc_command (interrupted_at e InMap) (abc_returncode e);
  if (returncode =? 0)%Z then mret true
  else print (Text "Error running abc script");; mret false.

Definition convert_netlist_to_output_format (e : iter_env) (mapped_netlist : string)
    : M (option string) :=
  let output_filename := "release/net_complete/converted_design.v" in
  let convert_command :=
    "python3 scripts/convert_netlist_2.py " +:+ mapped_netlist +:+ " "
      +:+ output_filename in
  returncode ← subprocess_run convert_command (interrupted_at e InConvert)
                 (convert_returncode e);
  if (returncode =? 0)%Z then mret (Some output_filename)
  else print (Text "Error running convert_netlist_2.py");; mret None.

Section Bridge.
Context `{PyRuntime}.

(** What [estimate_cost] does with the text of [release/cost.txt]:
    [None] is the function's [return None]. *)
Definition parse_cost (content : string) : res (option float) :=
  let output_line := strip (readline content) in
  if contains "cost = " output_line then
    field ← list_get (split_on "=" output_line) 1;
    let cost_str := strip field in
    cost ← of_option ValueError (float_of_str cost_str);
    Ok (Some cost)
  else Ok None.

Definition estimate_cost (e : iter_env) (netlist_filename library_path
    cost_function : string) : M (option float) :=
  let cost_output_filename := "release/cost.txt" in
  let cost_command :=
    cost_function +:+ " -library " +:+ library_path +:+ " -netlist "
      +:+ netlist_filename +:+ " -output " +:+ cost_output_filename in
  returncode ← subprocess_run cost_command (interrupted_at e InEvaluate)
                 (cost_returncode e);
  if (returncode =? 0)%Z then
    content ← lift (of_option FileNotFoundError (cost_file e));
    cost ← lift (parse_cost content);
    match cost with
    | Some c => mret (Some c)
    | None => print (Text "Unexpected output format in cost file");; mret None
    end
  else print (Text "Error running cost estimator");; mret None.

(** ** The search loop *)

Definition num_iterations : nat := 3000.
Definition best_genlib : string := "best_genlib.genlib".

(** The call of the generator in the loop.  An exception of the
    generator ends the run; the file it leaves half written is not
    recorded. *)
Definition run_generator (data : json) (iteration : nat) : M string := λ st,
  match generate_random_genlib data iteration (gen st) with
  | Ok (entries, g) =>
      ({| best_cost := best_cost st; gen := g;
          log := (log st ++ [WriteFile genlib_filename (genlib_writes entries)])%list |},
       Ok genlib_filename)
  | Raise x => (st, Raise x)
  end.

Definition generate (e : iter_env) (data : json) (iteration : nat) : M string :=
  at_stage e InGenerate;;
  run_generator data iteration.

(** Lines 210 to 214. *)
Definition compare_and_promote (e : iter_env) (best_netlist : string)
    (converted_netlist genlib : string) (current_cost : float) : M unit :=
  best ← get_best_cost;
  if SFltb current_cost best then
    set_best_cost current_cost;;
    at_stage e InPromote;;
    os_rename converted_netlist best_netlist (rename_netlist_error e);;
    os_rename genlib best_genlib (rename_genlib_error e);;
    print (MsgNewBest best_netlist current_cost best_genlib)
  else mret tt.

(** The body of [for iteration in range(num_iterations)]. *)
Definition iteration_body (args : arguments) (data : json)
    (converted_netlist_abc : string) (e : iter_env) (iteration : nat) : M unit :=
  print (MsgIteration (iteration + 1));;
  genlib ← generate e data iteration;
  '(script_filename, mapped_netlist) ← create_abc_script converted_netlist_abc genlib;
  ok ← run_abc_script e script_filename;
  if negb ok then print (MsgSkip (iteration + 1) "abc script error")
  else
    converted_netlist ← convert_netlist_to_output_format e mapped_netlist;
    match converted_netlist with
    | None => print (MsgSkip (iteration + 1) "conversion error")
    | Some converted_netlist =>
        current_cost ← estimate_cost e converted_netlist (library args)
                         (cost_function args);
        match current_cost with
        | None => print (MsgSkip (iteration + 1) "cost estimation error")
        | Some current_cost =>
            print (MsgCost (iteration + 1) current_cost);;
            compare_and_promote e (output args) converted_netlist genlib current_cost
        end
    end.

(** [n] turns of the loop from index [iteration] on. *)
Fixpoint search_loop (args : arguments) (data : json) (converted_netlist_abc : string)
    (w : world) (n iteration : nat) : M unit :=
  match n with
  | 0 => mret tt
  | S n' =>
      iteration_body args data converted_netlist_abc (iter w iteration) iteration;;
      search_loop args data converted_netlist_abc w n' (S iteration)
  end.

(** How control leaves the [try] block of [main]. *)
Inductive completion : Set :=
| Finished    (* the loop ran out of iterations and the best result was printed *)
| Returned.   (* the [return] after the failed first conversion *)

Definition main_try (args : arguments) (w : world) : M completion :=
  data ← lift (library_data w);
  converted_netlist_abc ← convert_netlist_to_abc_format w (netlist args);
  match converted_netlist_abc with
  | None => print (Text "Failed to convert netlist to ABC format");; mret Returned
  | Some converted_netlist_abc =>
      search_loop args data converted_netlist_abc w num_iterations 0;;
      best ← get_best_cost;
      print (MsgBestNetlist (output args) best);;
      print (MsgBestGenlib best_genlib);;
      mret Finished
  end.

(** How a run ends. *)
Inductive ending : Set :=
| Exhausted
| SetupFailed
| DeadlineExpired
| Crashed (e : exn).

Definition initial_state (w : world) : state :=
  {| best_cost := float_inf; gen := seed w; log := [] |}.

(** [main()]: the [try], the [except TimeoutError] and the [finally]. *)
Definition main (args : arguments) (w : world) : state * ending :=
  let '(st, r) := main_try args w (initial_state w) in
  let '(st, r) :=
    match r with
    | Raise TimeoutError =>
        ((print (Text "The operation timed out") st).1, DeadlineExpired)
    | Raise e => (st, Crashed e)
    | Ok Finished => (st, Exhausted)
    | Ok Returned => (st, SetupFailed)
    end in
  ((print (MsgElapsed (elapsed_time w)) st).1, r).

End Bridge.

(** ** The library description of the design document

    A mapping with an [information.attributes] list of attribute names
    and a [cells] list of records, each with a [cell_name], a
    [cell_type] and a numeric value for every declared attribute. *)

Section DataModel.
Context `{PyRuntime}.

(** The values [float()] accepts. *)
Definition numeric (v : json) : bool :=
  match v with
  | JFloat _ | JBool _ => true
  | JInt z => bool_decide (is_Some (float_of_int z))
  | JStr s => bool_decide (is_Some (float_of_str s))
  | _ => false
  end.

Definition attribute_ok (items : list (string * json)) (attr : json) : bool :=
  match attr with
  | JStr a =>
      is_reserved attr
      || match assoc a items with
         | Some v => numeric v
         | None => false
         end
  | _ => false
  end.

Definition cell_ok (attrs : list json) (cell : json) : bool :=
  match cell with
  | JObj items =>
      bool_decide (is_Some (assoc "cell_name" items))
      && bool_decide (is_Some (assoc "cell_type" items))
      && forallb (attribute_ok items) attrs
  | _ => false
  end.


(** The generator of section 4.1 with step 3 left out: collect, pad,
    shuffle, bind. *)
Definition cell_slots_shuffle_only (attributes cell : json) (g : rng)
    : res (slots * rng) :=
  attrs ← py_iter attributes;
  cell_attributes ← collect_attributes cell attrs;
  '(shuffled, g) ← shuffle (pad_attributes cell_attributes) g;
  s ← bind_slots shuffled;
  Ok (s, g).

End DataModel.

(** The fixed set of cell types. *)
Definition fixed_types : list string :=
  ["and"; "or"; "xor"; "nand"; "nor"; "not"; "buf"; "xnor"].

Definition in_fixed_set (cell : json) : bool :=
  match getitem cell (JStr "cell_type") with
  | Ok (JStr t) => bool_decide (t ∈ fixed_types)
  | _ => false
  end.

(** The entry [e] is the one written for the cell [c]. *)
Definition entry_of (c : json) (e : gate) : Prop :=
  getitem c (JStr "cell_name") = Ok (gate_name e)
  ∧ ∃ t, getitem c (JStr "cell_type") = Ok t ∧ gate_function t = Some (gate_expr e).

(** ** A runtime and inputs to run the embedding on *)

(** A reader of plain decimals ([12], [1.5]) standing for [float(str)]:
    the quotient of two exactly represented integers, rounded once. *)
Fixpoint decimal_digits (s : string) (acc : Z) (scale : option Z) (seen : bool)
    : option (Z * Z) :=
  match s with
  | "" => if seen then Some (acc, default 1%Z scale) else None
  | String c s' =>
      let n := nat_of_ascii c in
      if Ascii.eqb c "." then
        match scale with
        | None => decimal_digits s' acc (Some 1%Z) seen
        | Some _ => None
        end
      else if ((48 <=? n)%nat && (n <=? 57)%nat)%bool then
        decimal_digits s' (10 * acc + Z.of_nat (n - 48))%Z
          (Z.mul 10 <$> scale) true
      else None
  end.

Definition sample_float_of_str (s : string) : option float :=
  '(m, k) ← decimal_digits (strip s) 0 None false;
  Some (SFdiv 53 1024 (binary_normalize 53 1024 m 0 false)
                      (binary_normalize 53 1024 k 0 false)).

Definition sample_float_repr (f : float) : string :=
  match f with
  | S754_zero s => if s then "-0.0" else "0.0"
  | S754_infinity s => if s then "-inf" else "inf"
  | S754_nan => "nan"
  | S754_finite s m e =>
      (if s then "-" else "") +:+ pretty (Zpos m) +:+ "*2**" +:+ pretty e
  end.

Definition sample_runtime : PyRuntime := {|
  float_of_str := sample_float_of_str;
  float_repr := sample_float_repr;
  json_str := λ _, "<value>";
|}.

Definition sample_cell (name type : string) (values : list (string * json)) : json :=
  JObj ([("cell_name", JStr name); ("cell_type", JStr type)] ++ values)%list.

(** Two declared numeric attributes; one cell of a type outside the
    fixed set. *)
Definition sample_library : json :=
  JObj [("information",
         JObj [("attributes",
                JArr [JStr "cell_name"; JStr "cell_type"; JStr "area"; JStr "delay"])]);
        ("cells",
         JArr [sample_cell "G1" "and" [("area", JStr "1.5"); ("delay", JInt 3)];
               sample_cell "M1" "mux" [("area", JStr "4"); ("delay", JInt 2)];
               sample_cell "G2" "xor" [("area", JStr "2.5"); ("delay", JInt 5)]])].

(** What a call of the generator leaves in the file, or the exception
    it raises. *)
Definition written `{PyRuntime} (r : res (list gate * rng)) : res (list string) :=
  '(entries, _) ← r; Ok (genlib_writes entries).

(** Two calls on the same inputs write the same file, whatever the
    state of the random generator. *)
Definition deterministic_generation `{PyRuntime} : Prop :=
  ∀ (data : json) (iteration : nat) (g1 g2 : rng),
    written (generate_random_genlib data iteration g1)
    = written (generate_random_genlib data iteration g2).

(** Two entries for the same cell that differ at most in the order the
    shuffle gave to the values. *)
Definition same_up_to_shuffle (a b : gate) : Prop :=
  gate_name a = gate_name b
  ∧ gate_expr a = gate_expr b
  ∧ ∃ (vs p1 p2 : list float),
      p1 ≡ₚ pad_attributes vs ∧ p2 ≡ₚ pad_attributes vs
      ∧ slot_values (gate_slots a) = take num_required_attributes p1
      ∧ slot_values (gate_slots b) = take num_required_attributes p2.

(** ** Observations on a run *)

Definition is_rename (ev : event) : bool :=
  match ev with
  | Rename _ _ => true
  | _ => false
  end.

(** The lines printed after the loop: the best netlist with its cost,
    and the best genlib. *)
Definition is_best_report (ev : event) : bool :=
  match ev with
  | Print (MsgBestNetlist _ _) | Print (MsgBestGenlib _) => true
  | _ => false
  end.

Definition is_elapsed_report (ev : event) : bool :=
  match ev with
  | Print (MsgElapsed _) => true
  | _ => false
  end.

(** The best cost, both best paths and the elapsed time are all in the
    output. *)
Definition reports_everything (l : list event) : bool :=
  existsb (λ ev, match ev with Print (MsgBestNetlist _ _) => true | _ => false end) l
  && existsb (λ ev, match ev with Print (MsgBestGenlib _) => true | _ => false end) l
  && existsb is_elapsed_report l.

Section Prefix.
Context `{PyRuntime}.

(** The first [k] iterations of a run: [main_try] with the loop cut
    after [k] turns and without the lines printed after it. *)
Definition run_prefix (args : arguments) (w : world) (k : nat) : state * res unit :=
  (data ← lift (library_data w);
   converted_netlist_abc ← convert_netlist_to_abc_format w (netlist args);
   match converted_netlist_abc with
   | None => mret tt
   | Some converted_netlist_abc =>
       search_loop args data converted_netlist_abc w k 0
   end) (initial_state w).

Definition best_after (args : arguments) (w : world) (k : nat) : float :=
  best_cost (run_prefix args w k).1.

Definition log_after (args : arguments) (w : world) (k : nat) : list event :=
  log (run_prefix args w k).1.


End Prefix.

(** ** Reasoning about [M] *)

(** The events of an iteration that has not reached the comparison:
    commands, files written, and the progress and error lines. *)
Definition is_routine (ev : event) : bool :=
  match ev with
  | Exec _ | WriteFile _ _ => true
  | Print (Text _) | Print (MsgIteration _) | Print (MsgSkip _ _) => true
  | _ => false
  end.

(** [st'] is [st] after the events [evs], with the same best cost. *)
Definition extend (st : state) (evs : list event) (st' : state) : Prop :=
  best_cost st' = best_cost st ∧ log st' = (log st ++ evs)%list.

(** A computation that leaves the best cost alone and adds routine
    events only. *)
Definition quiet {A} (m : M A) : Prop :=
  ∀ st, ∃ evs, extend st evs (m st).1 ∧ forallb is_routine evs = true.

Definition converted_design : string := "release/net_complete/converted_design.v".

(** What the comparison of lines 210 to 214 adds when it replaces the
    best result. *)
Definition promotion (args : arguments) (c : float) : list event :=
  [Rename converted_design (output args);
   Rename genlib_filename best_genlib;
   Print (MsgNewBest (output args) c best_genlib)].

(** What one iteration, numbered [n] in the output, does to the state:
    it stays quiet, or it evaluates a cost [c] and compares it.  The
    result [r] tells whether the iteration ran to its end. *)
Definition iteration_post (args : arguments) (n : nat) (st st' : state)
    (r : res unit) : Prop :=
  ∃ evs, log st' = (log st ++ evs)%list
    ∧ ((best_cost st' = best_cost st ∧ forallb is_routine evs = true)
       ∨ ∃ pre c post,
           evs = (pre ++ Print (MsgCost n c) :: post)%list
           ∧ forallb is_routine pre = true
           ∧ if SFltb c (best_cost st)
             then best_cost st' = c
                  ∧ post `prefix_of` promotion args c
                  ∧ match r with
                    | Ok _ => post = promotion args c
                    | Raise _ => True
                    end
             else best_cost st' = best_cost st ∧ post = [] ∧ r = Ok tt).

(** The events that are neither a line of the final report nor the
    elapsed time. *)
Definition before_report (ev : event) : bool :=
  negb (is_best_report ev || is_elapsed_report ev).

(** ** Sample runs *)

Definition sample_arguments : arguments := {|
  netlist := "design.v";
  library := "lib.json";
  cost_function := "./cost_estimator";
  output := "optimized_design.v";
|}.

(** An iteration in which the three programs exit with status 0 and the
    cost file holds [content]. *)
Definition smooth_iteration (content : option string) : iter_env := {|
  alarm := None;
  abc_returncode := 0;
  convert_returncode := 0;
  cost_returncode := 0;
  cost_file := content;
  rename_netlist_error := None;
  rename_genlib_error := None;
|}.


(** An iteration in which the alarm goes off during the mapping. *)
Definition alarm_in_mapping : iter_env := {|
  alarm := Some InMap;
  abc_returncode := 0;
  convert_returncode := 0;
  cost_returncode := 0;
  cost_file := None;
  rename_netlist_error := None;
  rename_genlib_error := None;
|}.

Definition sample_world (each : iter_env) : world := {|
  library_data := Ok sample_library;
  setup_alarm := false;
  convert1_returncode := 0;
  iter := λ _, each;
  seed := [];
  elapsed_time := float_one;
|}.

(** The lines a run prints, in order. *)
Definition printed (l : list event) : list message :=
  omap (λ ev, match ev with Print m => Some m | _ => None end) l.

(** The attribute names of [sample_library], its first cell and the
    values declared for it. *)
Definition sample_attributes : list json :=
  [JStr "cell_name"; JStr "cell_type"; JStr "area"; JStr "delay"].

Definition sample_and_cell : json :=
  sample_cell "G1" "and" [("area", JStr "1.5"); ("delay", JInt 3)].

Definition sample_values : list float :=
  [S754_finite false 6755399441055744 (-52);
   S754_finite false 6755399441055744 (-51)].

(** A cell with eight numeric attributes. *)
Definition wide_attributes : list json :=
  [JStr "cell_name"; JStr "cell_type"; JStr "a1"; JStr "a2"; JStr "a3"; JStr "a4";
   JStr "a5"; JStr "a6"; JStr "a7"; JStr "a8"].

Definition wide_cell : json :=
  sample_cell "W" "nand"
    [("a1", JInt 1); ("a2", JInt 2); ("a3", JInt 3); ("a4", JInt 4);
     ("a5", JInt 5); ("a6", JInt 6); ("a7", JInt 7); ("a8", JInt 8)].

Definition wide_values : list float :=
  Eval vm_compute in
    omap float_of_int [1; 2; 3; 4; 5; 6; 7; 8]%Z.

(** The entries written for [sample_library] when every draw of the
    random generator is 0. *)
Definition sample_entries : list gate :=
  Eval vm_compute in
    match generate_random_genlib (H:=sample_runtime) sample_library 0 [] with
    | Ok (entries, _) => entries
    | Raise _ => []
    end.

(** The scenario of the design document: the cost program answers 3.0
    in the first iteration and 2.0 afterwards. *)
Definition two_costs_world : world := {|
  library_data := Ok sample_library;
  setup_alarm := false;
  convert1_returncode := 0;
  iter := λ i,
    match i with
    | 0 => smooth_iteration (Some ("cost = 3.0" +:+ nl))
    | _ => smooth_iteration (Some ("cost = 2.0" +:+ nl))
    end;
  seed := [];
  elapsed_time := float_one;
|}.

(** ** Predicates on texts and logs *)

Fixpoint string_forallb (p : ascii → bool) (s : string) : bool :=
  match s with
  | "" => true
  | String c s' => p c && string_forallb p s'
  end.

(** The characters at which [readline] ends a line. *)
Definition is_line_end (c : ascii) : bool :=
  (Ascii.eqb c "010" || Ascii.eqb c "013")%bool.

(** A text without blanks and without the sign [=], and not empty. *)
Definition is_token (x : string) : bool :=
  negb (String.eqb x "")
  && string_forallb (λ c, negb (is_space c) && negb (Ascii.eqb c "=")) x.

Fixpoint count_char (c : ascii) (s : string) : nat :=
  match s with
  | "" => 0
  | String a s' => (if Ascii.eqb a c then 1 else 0) + count_char c s'
  end.

(** The numbers of the lines [Iteration n] of a log, in order. *)
Definition iteration_lines (l : list event) : list nat :=
  omap (λ ev, match ev with Print (MsgIteration n) => Some n | _ => None end) l.

(** The costs a log shows as evaluated. *)
Definition evaluated_costs (l : list event) : list float :=
  omap (λ ev, match ev with Print (MsgCost _ c) => Some c | _ => None end) l.

Definition is_new_best (ev : event) : bool :=
  match ev with
  | Print (MsgNewBest _ _ _) => true
  | _ => false
  end.

Definition is_iteration_line (ev : event) : bool :=
  match ev with
  | Print (MsgIteration _) => true
  | _ => false
  end.

(** A computation whose events all satisfy [P]. *)
Definition emits (P : event → bool) {A} (m : M A) : Prop :=
  ∀ st, ∃ evs, log (m st).1 = (log st ++ evs)%list ∧ forallb P evs = true.

(** A runtime whose texts are fixed, to run the embedding on. *)
Definition plain_runtime : PyRuntime := {|
  float_of_str := sample_float_of_str;
  float_repr := λ _, "1.0";
  json_str := λ _, "<value>";
|}.

(** The renames a log shows, as pairs of source and destination, and
    the costs of its lines [New best netlist found]. *)
Definition renames (l : list event) : list (string * string) :=
  omap (λ ev, match ev with Rename src dst => Some (src, dst) | _ => None end) l.

Definition new_bests (l : list event) : list float :=
  omap (λ ev, match ev with Print (MsgNewBest _ c _) => Some c | _ => None end) l.

(** The events other than a line [Iteration n]. *)
Definition is_other_line (ev : event) : bool := negb (is_iteration_line ev).

(** ** More sample inputs *)

(** A random generator with twenty draws, and what generation on
    [sample_library] makes of it. *)
Definition long_seed : rng :=
  [3; 1; 4; 1; 5; 9; 2; 6; 5; 3; 5; 8; 9; 7; 9; 3; 2; 3; 8; 4].

Definition long_seed_entries : list gate :=
  Eval vm_compute in
    match generate_random_genlib (H:=sample_runtime) sample_library 0 long_seed with
    | Ok (entries, _) => entries
    | Raise _ => []
    end.

(** A cell without the declared attribute [delay], of a type outside
    the fixed set. *)
Definition broken_items : list (string * json) :=
  [("cell_name", JStr "B1"); ("cell_type", JStr "mux"); ("area", JStr "4")].

Definition broken_top : list (string * json) :=
  [("information", JObj [("attributes", JArr sample_attributes)]);
   ("cells", JArr [sample_and_cell; JObj broken_items; sample_and_cell])].

(** A world in which the first conversion exits with status 1. *)
Definition failed_setup_world : world := {|
  library_data := Ok sample_library;
  setup_alarm := false;
  convert1_returncode := 1;
  iter := λ _, smooth_iteration None;
  seed := [];
  elapsed_time := float_one;
|}.

(** * Properties *)

Close Scope string_scope.

(** ** Results *)

Lemma bind_Ok {A B} (m : res A) (f : A → res B) (b : B) :
  m ≫= f = Ok b ↔ ∃ a, m = Ok a ∧ f a = Ok b.
Proof.
  destruct m as [a|e]; simpl; split.
  - intros Hf. by exists a.
  - by intros (a' & [= ->] & Hf).
  - done.
  - by intros (a' & [=] & _).
Qed.

Ltac inv_bind H :=
  repeat match type of H with
  | _ ≫= _ = Ok _ =>
      let a := fresh "a" in
      let Ha := fresh "Ha" in
      apply bind_Ok in H as (a & Ha & H)
  end.

(** ** Padding *)

Lemma pad_loop_spec (fuel : nat) (l : list float) :
  num_required_attributes - length l ≤ fuel →
  pad_loop fuel l = (l ++ replicate (num_required_attributes - length l) float_one)%list.
Proof.
  revert l. induction fuel as [|fuel IH]; intros l Hfuel; simpl.
  - replace (num_required_attributes - length l) with 0 by lia.
    by rewrite app_nil_r.
  - destruct (Nat.ltb_spec (length l) num_required_attributes) as [Hlt|Hge].
    + rewrite IH by (rewrite length_app; simpl; lia).
      rewrite length_app, <- app_assoc. simpl. f_equal.
      replace (num_required_attributes - length l)
        with (S (num_required_attributes - (length l + 1))) by lia.
      done.
    + replace (num_required_attributes - length l) with 0 by lia.
      by rewrite app_nil_r.
Qed.

Lemma pad_attributes_spec (l : list float) :
  pad_attributes l = (l ++ replicate (num_required_attributes - length l) float_one)%list.
Proof. apply pad_loop_spec. lia. Qed.

Lemma pad_attributes_length (l : list float) :
  length (pad_attributes l) = length l `max` num_required_attributes.
Proof. rewrite pad_attributes_spec, length_app, length_replicate. lia. Qed.

(** ** Permutations *)

Lemma selections_length {A} (l : list A) : length (selections l) = length l.
Proof. induction l as [|x l IH]; simpl; [done|]. by rewrite length_fmap, IH. Qed.

Lemma selections_rest {A} (l : list A) (p : A * list A) :
  p ∈ selections l → S (length p.2) = length l.
Proof.
  revert p. induction l as [|x l IH]; intros p; simpl.
  - by intros ?%elem_of_nil.
  - intros [->|Hp]%elem_of_cons; [done|].
    apply list_elem_of_fmap in Hp as (q & -> & Hq). simpl. by rewrite IH.
Qed.

Lemma bind_length_const {A B} (f : A → list B) (l : list A) (k : nat) :
  (∀ a, a ∈ l → length (f a) = k) → length (l ≫= f) = length l * k.
Proof.
  induction l as [|a l IH]; intros Hf; [done|].
  rewrite bind_cons, length_app, IH, Hf; [simpl; lia|by left|].
  intros b Hb. apply Hf. by right.
Qed.

Lemma permutations_of_length {A} (n : nat) (l : list A) :
  length l = n → length (permutations_of n l) = fact n.
Proof.
  revert l. induction n as [|n IH]; intros l Hl; [done|].
  cbn [permutations_of].
  rewrite (bind_length_const _ _ (fact n)).
  - rewrite selections_length, Hl. simpl. lia.
  - intros p Hp. rewrite length_fmap. apply IH.
    apply selections_rest in Hp. lia.
Qed.

Lemma itertools_permutations_length {A} (l : list A) :
  length (itertools_permutations l) = fact (length l).
Proof. by apply permutations_of_length. Qed.

Lemma chosen_permutation_exists {A} (l : list A) (iteration : nat) :
  ∃ k p, py_mod iteration (length (itertools_permutations l)) = Ok k
         ∧ list_get (itertools_permutations l) k = Ok p.
Proof.
  pose proof (lt_O_fact (length l)) as Hpos.
  rewrite <- itertools_permutations_length in Hpos.
  unfold py_mod. destruct (Nat.eqb_spec (length (itertools_permutations l)) 0) as [?|Hne]; [lia|].
  pose proof (Nat.mod_upper_bound iteration _ Hne) as Hlt.
  apply lookup_lt_is_Some_2 in Hlt as [p Hp].
  exists (iteration mod length (itertools_permutations l)), p.
  split; [done|]. unfold list_get. by rewrite Hp.
Qed.

(** ** The shuffle *)

Lemma swap_Ok {A} (x : list A) (i j : nat) :
  i < length x → j < length x →
  ∃ x', swap x i j = Ok x' ∧ x' ≡ₚ x.
Proof.
  intros Hi Hj.
  destruct (lookup_lt_is_Some_2 x i Hi) as [xi Hxi].
  destruct (lookup_lt_is_Some_2 x j Hj) as [xj Hxj].
  exists (<[j:=xi]> (<[i:=xj]> x)). split.
  - unfold swap, list_get, list_set. rewrite Hxi, Hxj. simpl.
    destruct (Nat.ltb_spec i (length x)); [simpl|lia].
    rewrite length_insert. destruct (Nat.ltb_spec j (length x)); [done|lia].
  - apply Permutation_inj. split; [by rewrite !length_insert|].
    exists (λ k, if decide (k = i) then j else if decide (k = j) then i else k).
    split.
    + intros a b. repeat case_decide; intros; subst; congruence.
    + intros k. rewrite !list_lookup_insert, !length_insert.
      repeat case_decide; subst; try done; try lia; try (destruct_and?; congruence).
      all: destruct_and?; try lia.
Qed.

Lemma shuffle_from_Ok {A} (i : nat) (x : list A) (g : rng) :
  i < length x ∨ i = 0 →
  ∃ x' g', shuffle_from i x g = Ok (x', g') ∧ x' ≡ₚ x.
Proof.
  revert x g. induction i as [|i IH]; intros x g Hi.
  - by exists x, g.
  - destruct Hi as [Hi|?]; [|lia].
    cbn [shuffle_from]. unfold randbelow.
    assert (hd 0 g mod S (S i) < length x) as Hj.
    { pose proof (Nat.mod_upper_bound (hd 0 g) (S (S i))). lia. }
    destruct (swap_Ok x (S i) _ Hi Hj) as (x1 & -> & Hx1). simpl.
    destruct (IH x1 (tl g)) as (x' & g' & -> & Hx').
    { left. rewrite (Permutation_length Hx1). lia. }
    exists x', g'. split; [done|]. by rewrite Hx'.
Qed.

Lemma shuffle_Ok {A} (x : list A) (g : rng) :
  ∃ x' g', shuffle x g = Ok (x', g') ∧ x' ≡ₚ x.
Proof. apply shuffle_from_Ok. destruct x; simpl; lia. Qed.

Lemma bind_slots_Ok (l : list float) :
  num_required_attributes ≤ length l →
  ∃ s, bind_slots l = Ok s ∧ slot_values s = take num_required_attributes l.
Proof.
  intros Hl.
  do 7 (destruct l as [|? l]; [simpl in Hl; unfold num_required_attributes in Hl; lia|]).
  eexists. split; reflexivity.
Qed.

(** ** The generator on one cell *)

Section GeneratorFacts.
Context `{PyRuntime}.

Lemma cell_slots_unfold (attributes : json) (iteration : nat) (cell : json) (g : rng) :
  cell_slots attributes iteration cell g = cell_slots_shuffle_only attributes cell g.
Proof.
  unfold cell_slots, cell_slots_shuffle_only.
  destruct (py_iter attributes) as [attrs|]; [simpl|done].
  destruct (collect_attributes cell attrs) as [vs|]; [simpl|done].
  destruct (chosen_permutation_exists (pad_attributes vs) iteration)
    as (k & p & -> & Hp).
  simpl. by rewrite Hp.
Qed.

Lemma cell_slots_Ok (attributes : json) (iteration : nat) (cell : json) (g : rng)
    (attrs : list json) (vs : list float) :
  py_iter attributes = Ok attrs →
  collect_attributes cell attrs = Ok vs →
  ∃ s g' p, cell_slots attributes iteration cell g = Ok (s, g')
            ∧ p ≡ₚ pad_attributes vs
            ∧ slot_values s = take num_required_attributes p.
Proof.
  intros Hattrs Hvs. rewrite cell_slots_unfold. unfold cell_slots_shuffle_only.
  rewrite Hattrs. simpl. rewrite Hvs. simpl.
  destruct (shuffle_Ok (pad_attributes vs) g) as (p & g' & -> & Hp). simpl.
  destruct (bind_slots_Ok p) as (s & -> & Hs).
  { rewrite (Permutation_length Hp), pad_attributes_length. lia. }
  by exists s, g', p.
Qed.

Lemma cell_slots_inv (attributes : json) (iteration : nat) (cell : json) (g g' : rng)
    (s : slots) :
  cell_slots attributes iteration cell g = Ok (s, g') →
  ∃ attrs vs p, py_iter attributes = Ok attrs
    ∧ collect_attributes cell attrs = Ok vs
    ∧ p ≡ₚ pad_attributes vs
    ∧ slot_values s = take num_required_attributes p.
Proof.
  intros Hs. pose proof Hs as Hs'. unfold cell_slots in Hs'.
  apply bind_Ok in Hs' as (attrs & Hattrs & Hs').
  apply bind_Ok in Hs' as (vs & Hvs & _).
  destruct (cell_slots_Ok attributes iteration cell g attrs vs Hattrs Hvs)
    as (s1 & g1 & p & Heq & Hp & Hval).
  rewrite Hs in Heq. injection Heq as <- <-. by exists attrs, vs, p.
Qed.

(** The outcome of [collect_attributes] does not depend on anything but
    the cell and the attribute list, and keeps the declaration order. *)
Lemma collect_attributes_order (cell : json) (attrs : list json) (vs : list float) :
  collect_attributes cell attrs = Ok vs →
  Forall2 (λ attr v, ∃ j, getitem cell attr = Ok j ∧ py_float j = Ok v)
          (filter (λ attr, is_reserved attr = false) attrs) vs.
Proof.
  revert vs. induction attrs as [|attr attrs IH]; intros vs; simpl.
  - intros [= <-]. constructor.
  - destruct (is_reserved attr) eqn:Hres.
    + intros Hvs. rewrite filter_cons_False by congruence. by apply IH.
    + intros Hvs. inv_bind Hvs. injection Hvs as <-.
      rewrite filter_cons_True by done. constructor; eauto.
Qed.

Lemma collect_attributes_Ok (items : list (string * json)) (attrs : list json) :
  forallb (attribute_ok items) attrs = true →
  ∃ vs, collect_attributes (JObj items) attrs = Ok vs.
Proof.
  induction attrs as [|attr attrs IH]; simpl; [by eexists|].
  intros [Hattr Hrest]%andb_prop. destruct (IH Hrest) as (vs & Hvs).
  destruct (is_reserved attr) eqn:Hres; [by exists vs|].
  unfold attribute_ok in Hattr. destruct attr as [| | | |a| |]; try done.
  rewrite Hres in Hattr. simpl in Hattr.
  destruct (assoc a items) as [v|] eqn:Hv; [|done]. cbn [getitem]. simpl.
  assert (∃ f, py_float v = Ok f) as [f ->].
  { destruct v as [|b|z|f|s| |]; simpl in *; try done; eauto.
    - apply bool_decide_eq_true in Hattr as [f ->]. eauto.
    - apply bool_decide_eq_true in Hattr as [f ->]. eauto. }
  simpl. rewrite Hvs. simpl. eauto.
Qed.

Lemma process_cell_Ok (attributes : json) (attrs : list json) (iteration : nat)
    (cell : json) (g : rng) :
  py_iter attributes = Ok attrs →
  cell_ok attrs cell = true →
  ∃ e g', process_cell attributes iteration cell g = Ok (e, g').
Proof.
  intros Hattrs Hcell. destruct cell as [| | | | | |items]; try done.
  simpl in Hcell. apply andb_prop in Hcell as [[Hname Htype]%andb_prop Hall].
  apply bool_decide_eq_true in Hname as [name Hname].
  apply bool_decide_eq_true in Htype as [type Htype].
  destruct (collect_attributes_Ok items attrs Hall) as (vs & Hvs).
  destruct (cell_slots_Ok attributes iteration (JObj items) g attrs vs Hattrs Hvs)
    as (s & g' & p & Hs & _).
  unfold process_cell. simpl. rewrite Hname, Htype. simpl. rewrite Hs. simpl.
  destruct (gate_function type); eauto.
Qed.



End GeneratorFacts.


(** ** The table of cell types *)

Lemma gate_function_fixed (t : string) :
  is_Some (gate_function (JStr t)) ↔ t ∈ fixed_types.
Proof.
  unfold gate_function, fixed_types.
  repeat match goal with
  | |- context [String.eqb t ?s] =>
      destruct (String.eqb_spec t s) as [->|?];
      [split; [intros _; rewrite !elem_of_cons; naive_solver|intros _; eauto]|]
  end.
  split.
  - by intros [? [=]].
  - intros Hin.
    repeat (apply elem_of_cons in Hin as [->|Hin]; [congruence|]).
    by apply elem_of_nil in Hin.
Qed.

Lemma in_fixed_set_spec (cell type : json) :
  getitem cell (JStr "cell_type") = Ok type →
  in_fixed_set cell = true ↔ is_Some (gate_function type).
Proof.
  intros Htype. unfold in_fixed_set. rewrite Htype.
  destruct type as [| | | |t| |]; try (split; [done|by intros [? [=]]]).
  rewrite bool_decide_eq_true. symmetry. apply gate_function_fixed.
Qed.

Section EntryFacts.
Context `{PyRuntime}.

(** The three outcomes of the loop body on a cell; which one it is does
    not depend on the random generator. *)
Lemma cell_slots_cases (attributes : json) (iteration : nat) (cell : json) :
  (∃ e, ∀ g, cell_slots attributes iteration cell g = Raise e)
  ∨ (∃ vs, ∀ g, ∃ s g' p,
        cell_slots attributes iteration cell g = Ok (s, g')
        ∧ p ≡ₚ pad_attributes vs
        ∧ slot_values s = take num_required_attributes p).
Proof.
  destruct (py_iter attributes) as [attrs|e] eqn:Hattrs.
  - destruct (collect_attributes cell attrs) as [vs|e] eqn:Hvs.
    + right. exists vs. intros g. by apply (cell_slots_Ok _ _ _ _ attrs).
    + left. exists e. intros g. unfold cell_slots. rewrite Hattrs. simpl.
      by rewrite Hvs.
  - left. exists e. intros g. unfold cell_slots. by rewrite Hattrs.
Qed.

Lemma process_cell_cases (attributes : json) (iteration : nat) (cell : json) :
  (∃ e, ∀ g, process_cell attributes iteration cell g = Raise e)
  ∨ (in_fixed_set cell = false
     ∧ ∀ g, ∃ g', process_cell attributes iteration cell g = Ok (None, g'))
  ∨ (in_fixed_set cell = true
     ∧ ∃ name function vs,
         entry_of cell {| gate_name := name; gate_expr := function;
                          gate_slots := {| area := float_one; rise_block_delay := float_one;
                            fall_block_delay := float_one; rise_fanout_delay := float_one;
                            fall_fanout_delay := float_one; input_load := float_one;
                            max_load := float_one |} |}
         ∧ ∀ g, ∃ s g' p,
             process_cell attributes iteration cell g
             = Ok (Some {| gate_name := name; gate_expr := function; gate_slots := s |}, g')
             ∧ p ≡ₚ pad_attributes vs
             ∧ slot_values s = take num_required_attributes p).
Proof.
  unfold process_cell.
  destruct (getitem cell (JStr "cell_name")) as [name|e] eqn:Hname;
    [simpl|left; by exists e].
  destruct (getitem cell (JStr "cell_type")) as [type|e] eqn:Htype;
    [simpl|left; by exists e].
  destruct (cell_slots_cases attributes iteration cell) as [[e He]|[vs Hvs]].
  { left. exists e. intros g. by rewrite He. }
  pose proof (in_fixed_set_spec cell type Htype) as Hset.
  destruct (gate_function type) as [function|] eqn:Hfun.
  - right. right. split; [apply Hset; eauto|].
    exists name, function, vs. split.
    { split; [done|]. exists type. by split. }
    intros g. destruct (Hvs g) as (s & g' & p & -> & Hp & Hs). simpl.
    by exists s, g', p.
  - right. left. split.
    { destruct (in_fixed_set cell); [|done]. by destruct Hset as [[? [=]] _]. }
    intros g. destruct (Hvs g) as (s & g' & p & -> & _). simpl. by exists g'.
Qed.

(** Two calls on the same cells give the same exception, or entries for
    the same cells: those of the fixed set, in order. *)
Lemma process_cells_rel (attributes : json) (iteration : nat) (cells : list json)
    (g1 g2 : rng) :
  match process_cells attributes iteration cells g1,
        process_cells attributes iteration cells g2 with
  | Ok (es1, _), Ok (es2, _) =>
      Forall2 same_up_to_shuffle es1 es2
      ∧ Forall2 entry_of (filter in_fixed_set cells) es1
  | Raise e1, Raise e2 => e1 = e2
  | _, _ => False
  end.
Proof.
  revert g1 g2. induction cells as [|cell cells IH]; intros g1 g2; simpl.
  { split; constructor. }
  destruct (process_cell_cases attributes iteration cell)
    as [[e He]|[[Hout Hnone]|[Hin (name & function & vs & Hentry & Hsome)]]].
  - by rewrite !He.
  - destruct (Hnone g1) as (g1' & ->), (Hnone g2) as (g2' & ->). simpl.
    specialize (IH g1' g2').
    destruct (process_cells attributes iteration cells g1') as [[es1 ?]|e1],
      (process_cells attributes iteration cells g2') as [[es2 ?]|e2]; simpl; try done.
    rewrite filter_cons_False by (rewrite Hout; auto). done.
  - destruct (Hsome g1) as (s1 & g1' & p1 & -> & Hp1 & Hs1),
      (Hsome g2) as (s2 & g2' & p2 & -> & Hp2 & Hs2). simpl.
    specialize (IH g1' g2').
    destruct (process_cells attributes iteration cells g1') as [[es1 ?]|e1],
      (process_cells attributes iteration cells g2') as [[es2 ?]|e2]; simpl; try done.
    destruct IH as [IH1 IH2].
    rewrite filter_cons_True by (rewrite Hin; done).
    split.
    + constructor; [|done]. repeat split; try done. by exists vs, p1, p2.
    + constructor; [|done]. destruct Hentry as [Hn Ht]. by split.
Qed.

Lemma generate_random_genlib_rel (data : json) (iteration : nat) (g1 g2 : rng) :
  match generate_random_genlib data iteration g1,
        generate_random_genlib data iteration g2 with
  | Ok (es1, _), Ok (es2, _) => Forall2 same_up_to_shuffle es1 es2
  | Raise e1, Raise e2 => e1 = e2
  | _, _ => False
  end.
Proof.
  unfold generate_random_genlib.
  destruct (getitem data (JStr "information")) as [information|]; [simpl|done].
  destruct (getitem information (JStr "attributes")) as [attributes|]; [simpl|done].
  destruct (py_len attributes); [simpl|done].
  destruct (getitem data (JStr "cells")) as [cells|]; [simpl|done].
  destruct (py_iter cells) as [cs|]; [simpl|done].
  pose proof (process_cells_rel attributes iteration cs g1 g2) as Hrel.
  destruct (process_cells attributes iteration cs g1) as [[es1 ?]|e1],
    (process_cells attributes iteration cs g2) as [[es2 ?]|e2]; try done.
  by destruct Hrel.
Qed.

Lemma generate_random_genlib_entries (data : json) (iteration : nat) (g g' : rng)
    (entries : list gate) :
  generate_random_genlib data iteration g = Ok (entries, g') →
  ∃ cells, getitem data (JStr "cells") ≫= py_iter = Ok cells
           ∧ Forall2 entry_of (filter in_fixed_set cells) entries.
Proof.
  unfold generate_random_genlib. intros Hgen. inv_bind Hgen.
  exists a3. split; [by rewrite Ha2|].
  pose proof (process_cells_rel a0 iteration a3 g g) as Hrel.
  rewrite Hgen in Hrel. by destruct Hrel.
Qed.


Lemma process_cells_iteration (attributes : json) (i1 i2 : nat) (cells : list json)
    (g : rng) :
  process_cells attributes i1 cells g = process_cells attributes i2 cells g.
Proof.
  revert g. induction cells as [|cell cells IH]; intros g; [done|].
  simpl. unfold process_cell. rewrite !cell_slots_unfold.
  destruct (getitem cell (JStr "cell_name")); [simpl|done].
  destruct (getitem cell (JStr "cell_type")); [simpl|done].
  destruct (cell_slots_shuffle_only attributes cell g) as [[s g']|]; [simpl|done].
  destruct (gate_function a0); simpl; by rewrite IH.
Qed.

End EntryFacts.

(** ** Comparison of floats *)

Lemma SFltb_SFleb (x y : float) : SFltb x y = true → SFleb x y = true.
Proof. unfold SFltb, SFleb. by destruct (SFcompare x y) as [[]|]. Qed.

Lemma SFltb_not_nan (x y : float) : SFltb x y = true → is_nan x = false.
Proof. by destruct x. Qed.

Lemma SFleb_refl (x : float) : is_nan x = false → SFleb x x = true.
Proof.
  unfold SFleb. destruct x as [s|s| |s m e]; try done; try (by destruct s).
  intros _. simpl. destruct s; rewrite Z.compare_refl.
  - by rewrite (Pos.compare_cont_refl m Eq).
  - by rewrite (Pos.compare_cont_refl m Eq).
Qed.

Lemma SFltb_irrefl (x : float) : SFltb x x = false.
Proof.
  unfold SFltb. destruct x as [s|s| |s m e]; try done; try (by destruct s).
  simpl. destruct s; rewrite Z.compare_refl; by rewrite (Pos.compare_cont_refl m Eq).
Qed.

(** ** Quiet computations *)

Lemma bind_run {A B} (m : M A) (f : A → M B) (st : state) :
  (m ≫= f) st
  = match m st with
    | (st', Ok a) => f a st'
    | (st', Raise e) => (st', Raise e)
    end.
Proof. done. Qed.

Lemma extend_refl (st : state) : extend st [] st.
Proof. split; [done|]. by rewrite app_nil_r. Qed.

Lemma extend_trans (st st1 st2 : state) (evs1 evs2 : list event) :
  extend st evs1 st1 → extend st1 evs2 st2 → extend st (evs1 ++ evs2) st2.
Proof.
  intros [Hb1 Hl1] [Hb2 Hl2]. split; [congruence|].
  by rewrite Hl2, Hl1, app_assoc.
Qed.

Lemma quiet_ret {A} (a : A) : quiet (mret a).
Proof. intros st. exists []. split; [apply extend_refl|done]. Qed.

Lemma quiet_raise {A} (e : exn) : quiet (raise e : M A).
Proof. intros st. exists []. split; [apply extend_refl|done]. Qed.

Lemma quiet_lift {A} (r : res A) : quiet (lift r).
Proof. intros st. exists []. split; [apply extend_refl|done]. Qed.

Lemma quiet_emit (ev : event) : is_routine ev = true → quiet (emit ev).
Proof. intros Hev st. exists [ev]. split; [done|]. simpl. by rewrite Hev. Qed.

Lemma quiet_bind {A B} (m : M A) (f : A → M B) :
  quiet m → (∀ a, quiet (f a)) → quiet (m ≫= f).
Proof.
  intros Hm Hf st. rewrite bind_run.
  destruct (Hm st) as (evs1 & Hext1 & Hr1).
  destruct (m st) as [st1 [a|e]]; simpl in *.
  - destruct (Hf a st1) as (evs2 & Hext2 & Hr2).
    exists (evs1 ++ evs2). split; [by eapply extend_trans|].
    by rewrite forallb_app, Hr1, Hr2.
  - by exists evs1.
Qed.

Ltac quiet :=
  repeat first
    [ apply quiet_ret | apply quiet_raise | apply quiet_lift
    | apply quiet_emit; reflexivity
    | apply quiet_bind; [|intros ?]
    | match goal with
      | |- quiet (if ?b then _ else _) => destruct b
      | |- quiet (match ?x with _ => _ end) => destruct x
      end ].

Lemma quiet_at_stage (e : iter_env) (s : stage) : quiet (at_stage e s).
Proof. unfold at_stage. quiet. Qed.

Lemma quiet_subprocess_run (command : string) (interrupted : bool) (returncode : Z) :
  quiet (subprocess_run command interrupted returncode).
Proof. unfold subprocess_run. quiet. Qed.

Lemma quiet_convert_netlist_to_abc_format (w : world) (original_netlist : string) :
  quiet (convert_netlist_to_abc_format w original_netlist).
Proof.
  unfold convert_netlist_to_abc_format.
  apply quiet_bind; [apply quiet_subprocess_run|intros ?]. unfold print. quiet.
Qed.

Lemma quiet_create_abc_script (inputfile genlib : string) :
  quiet (create_abc_script inputfile genlib).
Proof. unfold create_abc_script. quiet. Qed.

Lemma quiet_run_abc_script (e : iter_env) (script_filename : string) :
  quiet (run_abc_script e script_filename).
Proof.
  unfold run_abc_script.
  apply quiet_bind; [apply quiet_subprocess_run|intros ?]. unfold print. quiet.
Qed.

Lemma quiet_convert_netlist_to_output_format (e : iter_env) (mapped_netlist : string) :
  quiet (convert_netlist_to_output_format e mapped_netlist).
Proof.
  unfold convert_netlist_to_output_format.
  apply quiet_bind; [apply quiet_subprocess_run|intros ?]. unfold print. quiet.
Qed.

Section LoopFacts.
Context `{PyRuntime}.

Lemma quiet_estimate_cost (e : iter_env) (netlist_filename library_path cost_function : string) :
  quiet (estimate_cost e netlist_filename library_path cost_function).
Proof.
  unfold estimate_cost.
  apply quiet_bind; [apply quiet_subprocess_run|intros ?]. unfold print. quiet.
Qed.

Lemma quiet_run_generator (data : json) (iteration : nat) :
  quiet (run_generator data iteration).
Proof.
  intros st. unfold run_generator.
  destruct (generate_random_genlib data iteration (gen st)) as [[entries g]|x].
  - by eexists [_].
  - exists []. split; [apply extend_refl|done].
Qed.

Lemma quiet_generate (e : iter_env) (data : json) (iteration : nat) :
  quiet (generate e data iteration).
Proof.
  unfold generate.
  apply quiet_bind; [apply quiet_at_stage|intros ?; apply quiet_run_generator].
Qed.

End LoopFacts.

(** ** One iteration *)

Lemma cases_bind {A B} (m : M A) (f : A → M B) (st0 st : state) (evs0 : list event)
    (P : state * res B → Prop) :
  quiet m →
  extend st0 evs0 st → forallb is_routine evs0 = true →
  (∀ st' evs e, extend st0 evs st' → forallb is_routine evs = true →
                m st = (st', Raise e) → P (st', Raise e)) →
  (∀ st' evs a, extend st0 evs st' → forallb is_routine evs = true →
                m st = (st', Ok a) → P (f a st')) →
  P ((m ≫= f) st).
Proof.
  intros Hm Hext Hr Hraise Hok. rewrite bind_run.
  destruct (Hm st) as (evs1 & Hext1 & Hr1).
  destruct (m st) as [st1 [a|e]] eqn:Hrun; simpl in *.
  - apply (Hok st1 (evs0 ++ evs1)); [by eapply extend_trans| |done].
    by rewrite forallb_app, Hr, Hr1.
  - apply (Hraise st1 (evs0 ++ evs1)); [by eapply extend_trans| |done].
    by rewrite forallb_app, Hr, Hr1.
Qed.

Lemma subprocess_run_Ok (command : string) (interrupted : bool) (returncode rc : Z)
    (st st' : state) :
  subprocess_run command interrupted returncode st = (st', Ok rc) →
  interrupted = false ∧ rc = returncode.
Proof.
  unfold subprocess_run. rewrite bind_run. simpl.
  destruct interrupted; [done|]. by intros [= _ ->].
Qed.



Lemma convert_netlist_to_output_format_Ok (e : iter_env) (mapped_netlist : string)
    (st st' : state) (r : option string) :
  convert_netlist_to_output_format e mapped_netlist st = (st', Ok r) →
  alarm e ≠ Some InConvert
  ∧ r = if (convert_returncode e =? 0)%Z then Some converted_design else None.
Proof.
  unfold convert_netlist_to_output_format. rewrite bind_run.
  destruct (subprocess_run _ _ _ st) as [st1 [rc|x]] eqn:Hrun; [|done].
  apply subprocess_run_Ok in Hrun as [Hint ->].
  apply bool_decide_eq_false in Hint. intros Hret. split; [done|].
  destruct (convert_returncode e =? 0)%Z; [by injection Hret as _ <-|].
  rewrite bind_run in Hret. simpl in Hret. by injection Hret as _ <-.
Qed.

Section IterationFacts.
Context `{PyRuntime}.

Lemma generate_Ok (e : iter_env) (data : json) (iteration : nat) (st st' : state)
    (x : string) :
  generate e data iteration st = (st', Ok x) →
  x = genlib_filename ∧ alarm e ≠ Some InGenerate
  ∧ ∃ entries, generate_random_genlib data iteration (gen st) = Ok (entries, gen st').
Proof.
  unfold generate, at_stage. rewrite bind_run.
  destruct (decide (alarm e = Some InGenerate)); [done|]. simpl.
  unfold run_generator.
  destruct (generate_random_genlib data iteration (gen st)) as [[entries g]|]; [|done].
  intros [= <- <-]. simpl. eauto.
Qed.


(** An iteration either stays quiet, or reaches the comparison with an
    evaluated cost after routine events only. *)
Lemma iteration_body_cases (args : arguments) (data : json) (converted_netlist_abc : string)
    (e : iter_env) (iteration : nat) (st : state) :
  (∃ evs, extend st evs (iteration_body args data converted_netlist_abc e iteration st).1
          ∧ forallb is_routine evs = true)
  ∨ (∃ evs st1 c,
        extend st evs st1 ∧ forallb is_routine evs = true
        ∧ iteration_body args data converted_netlist_abc e iteration st
          = (print (MsgCost (iteration + 1) c);;
             compare_and_promote e (output args) converted_design genlib_filename c) st1).
Proof.
  unfold iteration_body.
  eapply (cases_bind _ _ st st []); [unfold print; quiet|apply extend_refl|done|..].
  { intros st' evs x Hext Hr _. left. by exists evs. }
  intros st1 evs1 [] Hext1 Hr1 _.
  eapply cases_bind; [apply quiet_generate|done..| |].
  { intros st' evs x Hext Hr _. left. by exists evs. }
  intros st2 evs2 genlib Hext2 Hr2 [-> _]%generate_Ok.
  eapply cases_bind; [apply quiet_create_abc_script|done..| |].
  { intros st' evs x Hext Hr _. left. by exists evs. }
  intros st3 evs3 [script_filename mapped_netlist] Hext3 Hr3 _.
  eapply cases_bind; [apply quiet_run_abc_script|done..| |].
  { intros st' evs x Hext Hr _. left. by exists evs. }
  intros st4 evs4 ok Hext4 Hr4 _. destruct ok; simpl.
  2:{ left. exists (evs4 ++ [Print (MsgSkip (iteration + 1) "abc script error")]).
      split; [by eapply extend_trans|]. by rewrite forallb_app, Hr4. }
  eapply cases_bind; [apply quiet_convert_netlist_to_output_format|done..| |].
  { intros st' evs x Hext Hr _. left. by exists evs. }
  intros st5 evs5 conv Hext5 Hr5 [_ Hconv]%convert_netlist_to_output_format_Ok.
  destruct conv as [converted_netlist|].
  2:{ left. exists (evs5 ++ [Print (MsgSkip (iteration + 1) "conversion error")]).
      split; [by eapply extend_trans|]. by rewrite forallb_app, Hr5. }
  assert (converted_netlist = converted_design) as ->.
  { destruct (convert_returncode e =? 0)%Z; congruence. }
  eapply cases_bind; [apply quiet_estimate_cost|done..| |].
  { intros st' evs x Hext Hr _. left. by exists evs. }
  intros st6 evs6 cost Hext6 Hr6 _. destruct cost as [c|].
  2:{ left. exists (evs6 ++ [Print (MsgSkip (iteration + 1) "cost estimation error")]).
      split; [by eapply extend_trans|]. by rewrite forallb_app, Hr6. }
  right. by exists evs6, st6, c.
Qed.

End IterationFacts.

Section CompareFacts.
Context `{PyRuntime}.

Lemma compare_and_promote_spec (args : arguments) (e : iter_env) (c : float)
    (st : state) :
  let out := compare_and_promote e (output args) converted_design genlib_filename c st in
  ∃ post, log out.1 = log st ++ post
    ∧ if SFltb c (best_cost st)
      then best_cost out.1 = c
           ∧ post `prefix_of` promotion args c
           ∧ match out.2 with
             | Ok _ => post = promotion args c
             | Raise _ => True
             end
      else best_cost out.1 = best_cost st ∧ post = [] ∧ out.2 = Ok tt.
Proof.
  unfold compare_and_promote. rewrite bind_run. simpl.
  destruct (SFltb c (best_cost st)).
  - rewrite bind_run. simpl. rewrite bind_run. unfold at_stage.
    destruct (decide (alarm e = Some InPromote)); simpl.
    { exists []. rewrite app_nil_r. repeat split. apply prefix_nil. }
    rewrite bind_run. unfold os_rename at 1.
    destruct (rename_netlist_error e); simpl.
    { exists []. rewrite app_nil_r. repeat split. apply prefix_nil. }
    rewrite bind_run. unfold os_rename.
    destruct (rename_genlib_error e); simpl.
    { eexists [_]. repeat split. by eexists. }
    exists (promotion args c). rewrite <- !app_assoc.
    split; [done|]. split; [done|]. split; [reflexivity|done].
  - exists []. rewrite app_nil_r. repeat split.
Qed.

Lemma iteration_body_post (args : arguments) (data : json) (converted_netlist_abc : string)
    (e : iter_env) (iteration : nat) (st : state) :
  let out := iteration_body args data converted_netlist_abc e iteration st in
  iteration_post args (iteration + 1) st out.1 out.2.
Proof.
  destruct (iteration_body_cases args data converted_netlist_abc e iteration st)
    as [(evs & [Hbest Hlog] & Hr)|(evs & st1 & c & [Hbest Hlog] & Hr & ->)].
  - exists evs. split; [done|]. by left.
  - rewrite bind_run. simpl.
    match goal with
    | |- context [compare_and_promote _ _ _ _ _ ?s] =>
        destruct (compare_and_promote_spec args e c s) as (post & Hpost & Hcmp)
    end.
    simpl in Hpost, Hcmp.
    exists (evs ++ Print (MsgCost (iteration + 1) c) :: post). split.
    { rewrite Hpost, Hlog, <- !app_assoc. done. }
    right. exists evs, c, post. by rewrite <- Hbest.
Qed.

End CompareFacts.

(** ** The loop *)

Lemma forallb_impl {A} (f g : A → bool) (l : list A) :
  (∀ a, f a = true → g a = true) → forallb f l = true → forallb g l = true.
Proof.
  intros Hfg. induction l as [|a l IH]; simpl; [done|].
  intros [Ha Hl]%andb_prop. by rewrite (Hfg a Ha), IH.
Qed.

Lemma routine_before_report (ev : event) :
  is_routine ev = true → before_report ev = true.
Proof. by destruct ev as [[]| | |]. Qed.


Lemma prefix_promotion (args : arguments) (c : float) (post : list event) :
  post `prefix_of` promotion args c → forallb before_report post = true.
Proof.
  intros [k Hk]. unfold promotion in Hk.
  destruct post as [|? [|? [|? [|? post]]]]; simplify_eq/=; done.
Qed.

Section RunFacts.
Context `{PyRuntime}.

Lemma search_loop_snoc (args : arguments) (data : json) (converted_netlist_abc : string)
    (w : world) (k i : nat) (st : state) :
  search_loop args data converted_netlist_abc w (S k) i st
  = match search_loop args data converted_netlist_abc w k i st with
    | (st', Ok _) =>
        iteration_body args data converted_netlist_abc (iter w (i + k)) (i + k) st'
    | (st', Raise e) => (st', Raise e)
    end.
Proof.
  revert i st. induction k as [|k IH]; intros i st.
  - cbn [search_loop]. rewrite bind_run. simpl. rewrite Nat.add_0_r.
    by destruct (iteration_body _ _ _ _ _ st) as [st' [[]|e]].
  - change (search_loop args data converted_netlist_abc w (S (S k)) i st)
      with ((iteration_body args data converted_netlist_abc (iter w i) i;;
             search_loop args data converted_netlist_abc w (S k) (S i)) st).
    change (search_loop args data converted_netlist_abc w (S k) i st)
      with ((iteration_body args data converted_netlist_abc (iter w i) i;;
             search_loop args data converted_netlist_abc w k (S i)) st).
    rewrite !bind_run.
    destruct (iteration_body _ _ _ _ _ st) as [st1 [[]|e]]; [|done].
    rewrite IH. by replace (S i + k) with (i + S k) by lia.
Qed.

(** The state at the entry of the loop, when the run gets there. *)
Lemma run_prefix_cases (args : arguments) (w : world) :
  (∀ k, run_prefix args w k = run_prefix args w 0)
  ∨ ∃ data converted_netlist_abc st0 evs,
      extend (initial_state w) evs st0 ∧ forallb is_routine evs = true
      ∧ library_data w = Ok data
      ∧ convert_netlist_to_abc_format w (netlist args) (initial_state w)
        = (st0, Ok (Some converted_netlist_abc))
      ∧ ∀ k, run_prefix args w k
             = search_loop args data converted_netlist_abc w k 0 st0.
Proof.
  assert (∀ k, run_prefix args w k
    = match library_data w with
      | Ok data =>
          match convert_netlist_to_abc_format w (netlist args) (initial_state w) with
          | (st0, Ok (Some conv)) => search_loop args data conv w k 0 st0
          | (st0, Ok None) => (st0, Ok tt)
          | (st0, Raise e) => (st0, Raise e)
          end
      | Raise e => (initial_state w, Raise e)
      end) as Hrun.
  { intros k. unfold run_prefix. rewrite bind_run. unfold lift.
    destruct (library_data w) as [data|e]; [|done]. rewrite bind_run.
    by destruct (convert_netlist_to_abc_format w (netlist args) (initial_state w))
      as [st0 [[conv|]|e]]. }
  destruct (library_data w) as [data|e].
  2:{ left. intros k. by rewrite !Hrun. }
  destruct (quiet_convert_netlist_to_abc_format w (netlist args) (initial_state w))
    as (evs & Hext & Hr).
  destruct (convert_netlist_to_abc_format w (netlist args) (initial_state w))
    as [st0 [[conv|]|e]] eqn:Hconv.
  - right. exists data, conv, st0, evs. repeat split; try done; apply Hext.
  - left. intros k. by rewrite !Hrun.
  - left. intros k. by rewrite !Hrun.
Qed.

(** One more turn either changes nothing, when the run is already over,
    or is the loop body at the state reached so far. *)
Lemma run_prefix_step (args : arguments) (w : world) (k : nat) :
  run_prefix args w (S k) = run_prefix args w k
  ∨ ∃ data converted_netlist_abc,
      (run_prefix args w k).2 = Ok tt
      ∧ run_prefix args w (S k)
        = iteration_body args data converted_netlist_abc (iter w k) k
            (run_prefix args w k).1.
Proof.
  destruct (run_prefix_cases args w) as [Hsame|(data & conv & st0 & evs & _ & _ & _ & _ & Hrun)].
  - left. by rewrite (Hsame (S k)), (Hsame k).
  - rewrite !Hrun, search_loop_snoc.
    destruct (search_loop args data conv w k 0 st0) as [st' [[]|e]]; [|by left].
    right. by exists data, conv.
Qed.

Lemma run_prefix_post (args : arguments) (w : world) (k : nat) :
  iteration_post args (k + 1) (run_prefix args w k).1
    (run_prefix args w (S k)).1 (run_prefix args w (S k)).2.
Proof.
  destruct (run_prefix_step args w k) as [->|(data & conv & _ & ->)].
  - exists []. rewrite app_nil_r. split; [done|]. by left.
  - apply iteration_body_post.
Qed.

Lemma best_after_0 (args : arguments) (w : world) : best_after args w 0 = float_inf.
Proof.
  unfold best_after.
  destruct (run_prefix_cases args w) as [_|(data & conv & st0 & evs & [Hb _] & _ & _ & _ & Hrun)].
  - unfold run_prefix. rewrite bind_run. unfold lift.
    destruct (library_data w) as [data|e]; [|done].
    destruct (quiet_convert_netlist_to_abc_format w (netlist args) (initial_state w))
      as (evs & [Hb _] & _).
    rewrite bind_run.
    by destruct (convert_netlist_to_abc_format w (netlist args) (initial_state w))
      as [st0 [[conv|]|e]].
  - by rewrite Hrun.
Qed.

Lemma best_after_not_nan (args : arguments) (w : world) (k : nat) :
  is_nan (best_after args w k) = false.
Proof.
  induction k as [|k IH]; [by rewrite best_after_0|].
  destruct (run_prefix_post args w k) as (evs & _ & [[Hb _]|(pre & c & post & _ & _ & Hcmp)]).
  - unfold best_after in *. by rewrite Hb.
  - unfold best_after in *. destruct (SFltb c _) eqn:Hlt.
    + destruct Hcmp as (-> & _). by apply SFltb_not_nan in Hlt.
    + destruct Hcmp as (-> & _). done.
Qed.

Lemma log_after_before_report (args : arguments) (w : world) (k : nat) :
  forallb before_report (log_after args w k) = true.
Proof.
  unfold log_after. induction k as [|k IH].
  - destruct (run_prefix_cases args w) as [_|(data & conv & st0 & evs & [_ Hl] & Hr & _ & _ & Hrun)].
    + unfold run_prefix. rewrite bind_run. unfold lift.
      destruct (library_data w) as [data|e]; [|done].
      destruct (quiet_convert_netlist_to_abc_format w (netlist args) (initial_state w))
        as (evs & [_ Hl] & Hr).
      rewrite bind_run.
      destruct (convert_netlist_to_abc_format w (netlist args) (initial_state w))
        as [st0 [[conv|]|e]]; simpl in *; rewrite Hl; simpl;
        by apply (forallb_impl is_routine); [apply routine_before_report|].
    + rewrite Hrun. simpl. rewrite Hl. simpl.
      by apply (forallb_impl is_routine); [apply routine_before_report|].
  - destruct (run_prefix_post args w k) as (evs & -> & [[_ Hr]|(pre & c & post & -> & Hr & Hcmp)]).
    + rewrite forallb_app, IH. simpl.
      by apply (forallb_impl is_routine); [apply routine_before_report|].
    + rewrite !forallb_app, IH. simpl.
      rewrite (forallb_impl is_routine before_report pre routine_before_report Hr).
      simpl. apply (prefix_promotion args c).
      destruct (SFltb c _); [by destruct Hcmp as (_ & ? & _)|].
      destruct Hcmp as (_ & -> & _). apply prefix_nil.
Qed.

End RunFacts.

(** ** Iterations that fail *)



Lemma convert_netlist_to_abc_format_run (w : world) (original_netlist : string)
    (st : state) :
  setup_alarm w = false →
  ∃ st', convert_netlist_to_abc_format w original_netlist st
         = (st', Ok (if (convert1_returncode w =? 0)%Z
                     then Some "release/net_m/design_m.v"%string else None))
         ∧ ∃ evs, extend st evs st' ∧ forallb is_routine evs = true.
Proof.
  intros Halarm.
  destruct (quiet_convert_netlist_to_abc_format w original_netlist st)
    as (evs & Hext & Hr).
  unfold convert_netlist_to_abc_format in *. rewrite bind_run in *.
  unfold subprocess_run in *. rewrite bind_run in *. rewrite Halarm in *. simpl in *.
  destruct (convert1_returncode w =? 0)%Z; simpl in *; eauto.
Qed.

Section FailureFacts.
Context `{PyRuntime}.






(** [main_try] is the prefix of all [num_iterations] turns followed by
    the lines after the loop, or by the [return] of a failed setup. *)
Lemma main_try_run (args : arguments) (w : world) :
  main_try args w (initial_state w)
  = match run_prefix args w num_iterations with
    | (st, Raise e) => (st, Raise e)
    | (st, Ok _) =>
        if (convert1_returncode w =? 0)%Z
        then (best ← get_best_cost;
              print (MsgBestNetlist (output args) best);;
              print (MsgBestGenlib best_genlib);;
              mret Finished) st
        else (print (Text "Failed to convert netlist to ABC format");;
              mret Returned) st
    end.
Proof.
  unfold main_try, run_prefix. generalize num_iterations as n. intros n.
  rewrite !bind_run. unfold lift.
  destruct (library_data w) as [data|e]; [|done]. rewrite !bind_run.
  destruct (setup_alarm w) eqn:Halarm.
  - unfold convert_netlist_to_abc_format, subprocess_run. rewrite !bind_run.
    by rewrite Halarm.
  - destruct (convert_netlist_to_abc_format_run w (netlist args) (initial_state w) Halarm)
      as (st0 & -> & _).
    destruct (convert1_returncode w =? 0)%Z; [|done].
    rewrite bind_run.
    by destruct (search_loop args data _ w n 0 st0) as [st [[]|e]].
Qed.

End FailureFacts.

(** * The statements of the design document *)

Section Statements.
Context `{PyRuntime}.


(** C2, as amended. The elapsed time is the last line of every run.  A
    run that exhausts the iteration count prints the best netlist with
    the best cost and the best genlib just before it; a run ended by the
    alarm prints the timeout message instead, and neither of the two
    lines about the best result. *)
Theorem report_at_termination (args : arguments) (w : world) :
  match (main args w).2 with
  | Exhausted =>
      ∃ pre, log (main args w).1
             = pre ++ [Print (MsgBestNetlist (output args)
                                (best_after args w num_iterations));
                       Print (MsgBestGenlib best_genlib);
                       Print (MsgElapsed (elapsed_time w))]
  | DeadlineExpired =>
      ∃ pre, log (main args w).1
             = pre ++ [Print (Text "The operation timed out");
                       Print (MsgElapsed (elapsed_time w))]
             ∧ forallb before_report pre = true
  | SetupFailed | Crashed _ =>
      ∃ pre, log (main args w).1 = pre ++ [Print (MsgElapsed (elapsed_time w))]
             ∧ forallb before_report pre = true
  end.
Proof.
  unfold main. rewrite main_try_run.
  pose proof (log_after_before_report args w num_iterations) as Hlog.
  unfold best_after, log_after in *.
  destruct (run_prefix args w num_iterations) as [st [[]|e]]; simpl in *.
  - destruct (convert1_returncode w =? 0)%Z; simpl.
    + exists (log st). by rewrite <- !app_assoc.
    + eexists. split; [done|]. by rewrite forallb_app, Hlog.
  - destruct e; simpl; try by (eexists; split; [done|]).
    exists (log st). split; [by rewrite <- app_assoc|done].
Qed.


(** What the state of the random generator cannot change: two calls of
    the generator on the same library description and iteration index
    raise the same exception, or write entries for the same cells in the
    same order, with the same names and boolean expressions; the seven
    values of an entry are in both calls the first seven of a reordering
    of the same padded list of declared values. *)
Theorem generation_up_to_shuffle (data : json) (iteration : nat) (g1 g2 : rng) :
  match generate_random_genlib data iteration g1,
        generate_random_genlib data iteration g2 with
  | Ok (es1, _), Ok (es2, _) => Forall2 same_up_to_shuffle es1 es2
  | Raise e1, Raise e2 => e1 = e2
  | _, _ => False
  end.
Proof. apply generate_random_genlib_rel. Qed.

(** C6. The permutation at position [iteration mod (number of
    permutations)] is always found, and never used: the seven values
    come from the shuffle of the padded list, and the file written does
    not depend on the iteration index. *)
Theorem chosen_permutation_unused :
  (∀ (cell_attributes : list float) (iteration : nat),
      ∃ k chosen_permutation,
        py_mod iteration (length (itertools_permutations cell_attributes)) = Ok k
        ∧ list_get (itertools_permutations cell_attributes) k = Ok chosen_permutation)
  ∧ (∀ (attributes : json) (iteration : nat) (cell : json) (g : rng),
        cell_slots attributes iteration cell g
        = cell_slots_shuffle_only attributes cell g)
  ∧ (∀ (data : json) (i1 i2 : nat) (g : rng),
        generate_random_genlib data i1 g = generate_random_genlib data i2 g).
Proof.
  split; [intros; apply chosen_permutation_exists|].
  split; [intros; apply cell_slots_unfold|].
  intros data i1 i2 g. unfold generate_random_genlib.
  destruct (getitem data (JStr "information")) as [information|]; [simpl|done].
  destruct (getitem information (JStr "attributes")) as [attributes|]; [simpl|done].
  destruct (py_len attributes); [simpl|done].
  destruct (getitem data (JStr "cells")) as [cells|]; [simpl|done].
  destruct (py_iter cells) as [cs|]; [simpl|done].
  apply process_cells_iteration.
Qed.

(** C7. When a cell has fewer than seven declared numeric values, the
    padded list has exactly seven elements: the declared values, in the
    order of declaration, followed by [1.0] up to the seventh. *)
Theorem padding_to_seven (cell : json) (attrs : list json) (vs : list float) :
  collect_attributes cell attrs = Ok vs →
  length vs < num_required_attributes →
  Forall2 (λ attr v, ∃ j, getitem cell attr = Ok j ∧ py_float j = Ok v)
          (filter (λ attr, is_reserved attr = false) attrs) vs
  ∧ length (pad_attributes vs) = 7
  ∧ take (length vs) (pad_attributes vs) = vs
  ∧ drop (length vs) (pad_attributes vs) = replicate (7 - length vs) float_one.
Proof.
  intros Hvs Hlen. split; [by apply collect_attributes_order|].
  rewrite pad_attributes_spec. unfold num_required_attributes in *.
  rewrite length_app, length_replicate, take_app_length, drop_app_length.
  repeat split. lia.
Qed.

(** C8. Whatever the number of declared numeric values, below or above
    seven, the generator binds exactly seven values for the cell, to
    the area, the two block delays, the two fanout delays, the input
    load and the maximal load: the first seven of the shuffled padded
    list. *)
Theorem seven_slots (attributes : json) (iteration : nat) (cell : json) (g : rng)
    (attrs : list json) (vs : list float) :
  py_iter attributes = Ok attrs →
  collect_attributes cell attrs = Ok vs →
  ∃ s g' p,
    cell_slots attributes iteration cell g = Ok (s, g')
    ∧ p ≡ₚ pad_attributes vs
    ∧ [area s; rise_block_delay s; fall_block_delay s; rise_fanout_delay s;
       fall_fanout_delay s; input_load s; max_load s] = take 7 p
    ∧ length (take 7 p) = 7.
Proof.
  intros Hattrs Hvs.
  destruct (cell_slots_Ok attributes iteration cell g attrs vs Hattrs Hvs)
    as (s & g' & p & Hs & Hp & Hval).
  exists s, g', p. repeat split; try done.
  rewrite length_take, (Permutation_length Hp), pad_attributes_length.
  unfold num_required_attributes. lia.
Qed.



End Statements.

(** ** The statements on sample runs *)

Example parse_cost_line :
  parse_cost (H:=sample_runtime) ("cost = 3.0" +:+ nl)%string
  = Ok (Some (S754_finite false 6755399441055744 (-51)))
  ∧ parse_cost (H:=sample_runtime) "total 3.0" = Ok None
  ∧ parse_cost (H:=sample_runtime) "cost = abc" = Raise ValueError.
Proof. vm_compute. by repeat split. Qed.

(** After three iterations the best cost is 2.0, from the second
    iteration; the third, a tie, replaces nothing. *)
Example two_costs_scenario :
  best_after (H:=sample_runtime) sample_arguments two_costs_world 3
  = S754_finite false 4503599627370496 (-51)
  ∧ printed (log_after (H:=sample_runtime) sample_arguments two_costs_world 3)
    = [MsgIteration 1;
       MsgCost 1 (S754_finite false 6755399441055744 (-51));
       MsgNewBest "optimized_design.v" (S754_finite false 6755399441055744 (-51))
         "best_genlib.genlib";
       MsgIteration 2;
       MsgCost 2 (S754_finite false 4503599627370496 (-51));
       MsgNewBest "optimized_design.v" (S754_finite false 4503599627370496 (-51))
         "best_genlib.genlib";
       MsgIteration 3;
       MsgCost 3 (S754_finite false 4503599627370496 (-51))]
  ∧ filter (λ ev, is_rename ev = true)
      (log_after (H:=sample_runtime) sample_arguments two_costs_world 3)
    = [Rename converted_design "optimized_design.v";
       Rename genlib_filename "best_genlib.genlib";
       Rename converted_design "optimized_design.v";
       Rename genlib_filename "best_genlib.genlib"].
Proof. vm_compute. by repeat split. Qed.

(** C2 fails as stated: in a run whose first iteration is interrupted by
    the alarm during the mapping, the lines about the best result are
    never printed. *)
Lemma deadline_run_omits_best_report :
  (main (H:=sample_runtime) sample_arguments (sample_world alarm_in_mapping)).2
  = DeadlineExpired
  ∧ reports_everything
      (log (main (H:=sample_runtime) sample_arguments (sample_world alarm_in_mapping)).1)
    = false
  ∧ printed
      (log (main (H:=sample_runtime) sample_arguments (sample_world alarm_in_mapping)).1)
    = [MsgIteration 1; Text "The operation timed out"; MsgElapsed float_one].
Proof. vm_compute. by repeat split. Qed.

(** C4 on the code: when the cost program exits with status 0 and the
    cost file holds the marker followed by text that is not a number, or
    is missing, the exception leaves the loop and ends the run in its
    first iteration; nothing is reported but the elapsed time. *)
Theorem cost_exception_ends_run :
  let unparsable :=
    main (H:=sample_runtime) sample_arguments
      (sample_world (smooth_iteration (Some "cost = abc"%string))) in
  let missing :=
    main (H:=sample_runtime) sample_arguments (sample_world (smooth_iteration None)) in
  unparsable.2 = Crashed ValueError
  ∧ printed (log unparsable.1) = [MsgIteration 1; MsgElapsed float_one]
  ∧ missing.2 = Crashed FileNotFoundError
  ∧ printed (log missing.1) = [MsgIteration 1; MsgElapsed float_one].
Proof. vm_compute. by repeat split. Qed.

(** C5 on the code: with two states of the random generator the same
    library description and iteration index give two different files,
    although line 53 has selected the same permutation in both calls. *)
Theorem generation_not_deterministic : ¬ deterministic_generation (H:=sample_runtime).
Proof.
  intros Hdet. specialize (Hdet sample_library 0 [] [1]).
  vm_compute in Hdet. discriminate Hdet.
Qed.


Lemma padding_to_seven_witness :
  (collect_attributes (H:=sample_runtime) sample_and_cell sample_attributes
   = Ok sample_values
   ∧ length sample_values < num_required_attributes)
  ∧ Forall2 (λ attr v, ∃ j, getitem sample_and_cell attr = Ok j
                            ∧ py_float (H:=sample_runtime) j = Ok v)
      (filter (λ attr, is_reserved attr = false) sample_attributes) sample_values
  ∧ length (pad_attributes sample_values) = 7
  ∧ take (length sample_values) (pad_attributes sample_values) = sample_values
  ∧ drop (length sample_values) (pad_attributes sample_values)
    = replicate (7 - length sample_values) float_one.
Proof.
  split; [split; [reflexivity|cbv; lia]|].
  apply (padding_to_seven (H:=sample_runtime) sample_and_cell sample_attributes);
    [reflexivity|cbv; lia].
Defined.

Lemma seven_slots_witness :
  (py_iter (JArr wide_attributes) = Ok wide_attributes
   ∧ collect_attributes (H:=sample_runtime) wide_cell wide_attributes = Ok wide_values)
  ∧ ∃ s g' p,
      cell_slots (H:=sample_runtime) (JArr wide_attributes) 11 wide_cell [3; 1; 4] = Ok (s, g')
      ∧ p ≡ₚ pad_attributes wide_values
      ∧ [area s; rise_block_delay s; fall_block_delay s; rise_fanout_delay s;
         fall_fanout_delay s; input_load s; max_load s] = take 7 p
      ∧ length (take 7 p) = 7.
Proof.
  split; [split; reflexivity|].
  apply (seven_slots (H:=sample_runtime) (JArr wide_attributes) 11 wide_cell [3; 1; 4]
           wide_attributes wide_values); reflexivity.
Defined.



(** * Further properties of the code *)

(** ** Texts *)

Lemma string_forallb_impl (p q : ascii → bool) (s : string) :
  (∀ c, p c = true → q c = true) →
  string_forallb p s = true → string_forallb q s = true.
Proof.
  intros Hpq. induction s as [|c s IH]; simpl; [done|].
  intros [Hc Hs]%andb_prop. by rewrite (Hpq c Hc), IH.
Qed.

Lemma append_cons (c : ascii) (s t : string) :
  (String c s +:+ t)%string = String c (s +:+ t).
Proof. done. Qed.

Lemma append_empty (t : string) : ("" +:+ t)%string = t.
Proof. done. Qed.

Lemma line_end_is_space (c : ascii) : is_line_end c = true → is_space c = true.
Proof.
  unfold is_line_end. intros [Hc|Hc]%orb_prop; apply Ascii.eqb_eq in Hc; by subst.
Qed.

Lemma readline_line (s rest : string) (c : ascii) :
  string_forallb (λ a, negb (is_line_end a)) s = true →
  is_line_end c = true →
  readline (s +:+ String c rest) = (s +:+ nl)%string.
Proof.
  intros Hs Hc. induction s as [|a s IH]; simpl in *.
  - unfold is_line_end in Hc. by rewrite Hc.
  - apply andb_prop in Hs as [Ha Hs]. apply negb_true_iff in Ha.
    unfold is_line_end in Ha. rewrite Ha. by rewrite IH.
Qed.

Lemma readline_no_line_end (s : string) :
  string_forallb (λ a, negb (is_line_end a)) s = true → readline s = s.
Proof.
  induction s as [|a s IH]; simpl; [done|].
  intros [Ha Hs]%andb_prop. apply negb_true_iff in Ha.
  unfold is_line_end in Ha. rewrite Ha. by rewrite IH.
Qed.

Lemma lstrip_blank (w : string) : string_forallb is_space w = true → lstrip w = ""%string.
Proof.
  induction w as [|c w IH]; simpl; [done|].
  intros [Hc Hw]%andb_prop. rewrite Hc. by apply IH.
Qed.

Lemma rstrip_blank (w : string) : string_forallb is_space w = true → rstrip w = ""%string.
Proof.
  induction w as [|c w IH]; simpl; [done|].
  intros [Hc Hw]%andb_prop. by rewrite (IH Hw), Hc.
Qed.

Lemma rstrip_app_blank (s w : string) :
  string_forallb is_space w = true → rstrip (s +:+ w) = rstrip s.
Proof.
  intros Hw. induction s as [|c s IH]; simpl; [by apply rstrip_blank|].
  by rewrite IH.
Qed.

Lemma strip_app_blank (s w : string) :
  string_forallb is_space w = true → strip (s +:+ w) = strip s.
Proof.
  intros Hw. unfold strip. induction s as [|c s IH].
  - change (lstrip ("" +:+ w)) with (lstrip w). by rewrite (lstrip_blank w Hw).
  - change (lstrip (String c s +:+ w))
      with (if is_space c then lstrip (s +:+ w) else String c s +:+ w)%string.
    change (lstrip (String c s)) with (if is_space c then lstrip s else String c s).
    destruct (is_space c); [done|]. apply (rstrip_app_blank (String c s) w Hw).
Qed.

Lemma rstrip_no_blank (x : string) :
  string_forallb (λ c, negb (is_space c)) x = true → rstrip x = x.
Proof.
  induction x as [|c x IH]; simpl; [done|].
  intros [Hc Hx]%andb_prop. apply negb_true_iff in Hc. rewrite (IH Hx), Hc.
  by destruct x.
Qed.

Lemma rstrip_app_no_blank (s x : string) :
  x ≠ ""%string →
  string_forallb (λ c, negb (is_space c)) x = true →
  rstrip (s +:+ x) = (s +:+ x)%string.
Proof.
  intros Hne Hx. induction s as [|c s IH].
  - by apply rstrip_no_blank.
  - change (String c s +:+ x)%string with (String c (s +:+ x)).
    simpl. rewrite IH. destruct (s +:+ x)%string eqn:Happ; [|done].
    destruct s; simpl in Happ; [done|discriminate].
Qed.

Lemma split_on_absent (c : ascii) (x : string) :
  string_forallb (λ a, negb (Ascii.eqb a c)) x = true → split_on c x = [x].
Proof.
  induction x as [|a x IH]; simpl; [done|].
  intros [Ha Hx]%andb_prop. apply negb_true_iff in Ha. by rewrite Ha, IH.
Qed.

Lemma is_token_inv (x : string) :
  is_token x = true →
  x ≠ ""%string
  ∧ string_forallb (λ c, negb (is_space c)) x = true
  ∧ string_forallb (λ c, negb (Ascii.eqb c "=")) x = true
  ∧ string_forallb (λ c, negb (is_line_end c)) x = true.
Proof.
  intros [Hne Hx]%andb_prop. split.
  { intros ->. done. }
  assert (string_forallb (λ c, negb (is_space c)) x = true) as Hsp.
  { revert Hx. apply string_forallb_impl. by intros c [? _]%andb_prop. }
  split; [done|]. split.
  - revert Hx. apply string_forallb_impl. by intros c [_ ?]%andb_prop.
  - revert Hsp. apply string_forallb_impl. intros c Hc.
    destruct (is_line_end c) eqn:Hend; [|done].
    by rewrite (line_end_is_space c Hend) in Hc.
Qed.

Section CostTexts.
Context `{PyRuntime}.

(** X1. Only the first line of the cost file counts: what follows the first
    line end, of either kind, is never looked at. *)
Theorem cost_from_first_line (line rest : string) (c : ascii) :
  string_forallb (λ a, negb (is_line_end a)) line = true →
  is_line_end c = true →
  parse_cost (line +:+ String c rest) = parse_cost line.
Proof.
  intros Hline Hc. unfold parse_cost.
  rewrite (readline_line line rest c Hline Hc), (readline_no_line_end line Hline).
  by rewrite (strip_app_blank line nl).
Qed.

(** X2. A first line [cost = x], with [x] one word, gives [float(x)]: the
    cost when the word is a number, and a ValueError otherwise. *)
Theorem cost_of_marked_line (x : string) :
  is_token x = true →
  parse_cost ("cost = " +:+ x)
  = match float_of_str x with
    | Some cost => Ok (Some cost)
    | None => Raise ValueError
    end.
Proof.
  intros (Hne & Hsp & Heq & Hend)%is_token_inv. unfold parse_cost.
  assert (readline ("cost = " +:+ x) = ("cost = " +:+ x)%string) as ->.
  { rewrite !append_cons, append_empty. simpl.
    by rewrite (readline_no_line_end x Hend). }
  assert (strip ("cost = " +:+ x) = ("cost = " +:+ x)%string) as ->.
  { unfold strip. change (lstrip ("cost = " +:+ x)) with ("cost = " +:+ x)%string.
    by apply rstrip_app_no_blank. }
  assert (contains "cost = " ("cost = " +:+ x) = true) as ->.
  { rewrite !append_cons, append_empty. simpl. by destruct x. }
  assert (split_on "=" ("cost = " +:+ x) = ["cost "; " " +:+ x]%string) as ->.
  { rewrite !append_cons, append_empty. simpl.
    by rewrite (split_on_absent "=" x Heq). }
  assert (strip (" " +:+ x) = x) as Hstrip.
  { unfold strip. change (lstrip (" " +:+ x)) with (lstrip x).
    assert (lstrip x = x) as ->; [|by apply rstrip_no_blank].
    destruct x as [|a x]; [done|]. simpl in *.
    apply andb_prop in Hsp as [Ha _]. apply negb_true_iff in Ha. by rewrite Ha. }
  Opaque strip. simpl. rewrite Hstrip. Transparent strip.
  by destruct (float_of_str x).
Qed.

(** X3. A first line that ends after [cost =] and blanks does not hold the
    marker any more once it is stripped: the cost is reported as
    missing, not as unreadable. *)
Theorem cost_of_blank_line (w : string) :
  string_forallb is_space w = true →
  parse_cost ("cost = " +:+ w) = Ok None.
Proof.
  intros Hw. unfold parse_cost.
  assert (∃ w', readline ("cost = " +:+ w) = ("cost = " +:+ w')%string
                ∧ string_forallb is_space w' = true) as (w' & -> & Hw').
  { exists (readline w). split; [done|].
    clear -Hw. induction w as [|a w IH]; simpl in *; [done|].
    apply andb_prop in Hw as [Ha Hw].
    destruct (Ascii.eqb a "010" || Ascii.eqb a "013")%bool; [done|].
    simpl. by rewrite Ha, IH. }
  by rewrite (strip_app_blank "cost = " w' Hw').
Qed.

End CostTexts.

(** ** The permutations and the shuffle *)

Lemma selections_perm {A} (l : list A) (p : A * list A) :
  p ∈ selections l → p.1 :: p.2 ≡ₚ l.
Proof.
  revert p. induction l as [|x l IH]; intros p; simpl.
  - by intros ?%elem_of_nil.
  - intros [->|Hp]%elem_of_cons; [done|].
    apply list_elem_of_fmap in Hp as (q & -> & Hq). simpl.
    rewrite Permutation_swap. by rewrite (IH q Hq).
Qed.

Lemma permutations_of_perm {A} (n : nat) (l q : list A) :
  length l = n → q ∈ permutations_of n l → q ≡ₚ l.
Proof.
  revert l q. induction n as [|n IH]; intros l q Hl; cbn [permutations_of].
  - intros ->%list_elem_of_singleton. by destruct l.
  - intros (p & Hq & Hp)%list_elem_of_bind.
    apply list_elem_of_fmap in Hq as (q' & -> & Hq').
    rewrite <- (selections_perm l p Hp). constructor.
    apply IH; [|done]. apply selections_rest in Hp. lia.
Qed.

Lemma permutations_of_first {A} (l : list A) :
  permutations_of (length l) l !! 0 = Some l.
Proof.
  induction l as [|x l IH]; [done|].
  cbn [length permutations_of selections]. rewrite bind_cons. simpl.
  apply lookup_app_l_Some. by rewrite list_lookup_fmap, IH.
Qed.

(** X4. The list [all_permutations] of line 52 holds every one of the
    [n!] reorderings by position of the padded list, the padded list
    itself first; as the padded list has at least seven elements, each
    cell builds at least [7!], that is 5040, of them in each iteration. *)
Theorem all_permutations_built (cell_attributes : list float) :
  let all_permutations := itertools_permutations (pad_attributes cell_attributes) in
  length all_permutations = fact (length cell_attributes `max` 7)
  ∧ fact 7 ≤ length all_permutations
  ∧ all_permutations !! 0 = Some (pad_attributes cell_attributes)
  ∧ ∀ p, p ∈ all_permutations → p ≡ₚ pad_attributes cell_attributes.
Proof.
  cbv zeta. rewrite itertools_permutations_length, pad_attributes_length.
  unfold num_required_attributes. split; [done|]. split.
  - apply fact_le. lia.
  - split; [apply permutations_of_first|].
    intros p Hp. by apply (permutations_of_perm _ _ _ eq_refl).
Qed.

Lemma shuffle_from_draws {A} (i : nat) (x x' : list A) (g g' : rng) :
  shuffle_from i x g = Ok (x', g') → g' = drop i g.
Proof.
  revert x g. induction i as [|i IH]; intros x g; cbn [shuffle_from].
  - intros Hrun. by simplify_eq.
  - unfold randbelow. intros Hrun. inv_bind Hrun.
    rewrite (IH _ _ Hrun). destruct g; simpl; [by rewrite drop_nil|done].
Qed.

Section ShuffleFacts.
Context `{PyRuntime}.

(** X5. The seven values bound for a cell are declared values of the cell
    or pads, each taken at most as often as it occurs; with at most seven
    declared values every one of them is bound to a slot. *)
Theorem slots_hold_declared_values (attributes : json) (iteration : nat)
    (cell : json) (g : rng) (attrs : list json) (vs : list float) :
  py_iter attributes = Ok attrs →
  collect_attributes cell attrs = Ok vs →
  ∃ s g',
    cell_slots attributes iteration cell g = Ok (s, g')
    ∧ slot_values s ⊆+ pad_attributes vs
    ∧ match decide (length vs ≤ 7) with
      | left _ => slot_values s ≡ₚ vs ++ replicate (7 - length vs) float_one
      | right _ => slot_values s ⊆+ vs
      end.
Proof.
  intros Hattrs Hvs.
  destruct (cell_slots_Ok attributes iteration cell g attrs vs Hattrs Hvs)
    as (s & g' & p & Hs & Hp & Hval).
  exists s, g'. split; [done|]. rewrite Hval.
  assert (take num_required_attributes p ⊆+ pad_attributes vs) as Hsub.
  { rewrite <- Hp. apply submseteq_take. }
  split; [done|]. rewrite pad_attributes_spec in *. unfold num_required_attributes in *.
  destruct (decide (length vs ≤ 7)) as [Hle|Hgt].
  - rewrite take_ge; [done|].
    rewrite (Permutation_length Hp), length_app, length_replicate. lia.
  - replace (7 - length vs) with 0 in Hsub by lia. by rewrite app_nil_r in Hsub.
Qed.

Lemma cell_slots_draws (attributes : json) (iteration : nat) (cell : json)
    (g g' : rng) (s : slots) :
  cell_slots attributes iteration cell g = Ok (s, g') →
  ∃ attrs vs, py_iter attributes = Ok attrs
    ∧ collect_attributes cell attrs = Ok vs
    ∧ g' = drop (length vs `max` 7 - 1) g.
Proof.
  rewrite cell_slots_unfold. unfold cell_slots_shuffle_only. intros Hrun.
  apply bind_Ok in Hrun as (attrs & Hattrs & Hrun).
  apply bind_Ok in Hrun as (vs & Hvs & Hrun).
  apply bind_Ok in Hrun as ([x g1] & Hsh & Hrun).
  apply bind_Ok in Hrun as (s1 & _ & Hrun). injection Hrun as <- <-.
  exists attrs, vs. split; [done|]. split; [done|].
  unfold shuffle in Hsh. apply shuffle_from_draws in Hsh.
  by rewrite pad_attributes_length in Hsh.
Qed.

Lemma process_cells_draws (attributes : json) (iteration : nat) (cells : list json)
    (g g' : rng) (entries : list gate) (attrs : list json) :
  py_iter attributes = Ok attrs →
  process_cells attributes iteration cells g = Ok (entries, g') →
  g' = drop (length cells
             * (length (filter (λ attr, is_reserved attr = false) attrs) `max` 7 - 1)) g.
Proof.
  intros Hattrs. revert g entries.
  induction cells as [|cell cells IH]; intros g entries; simpl.
  - by intros [= _ <-].
  - intros Hrun. apply bind_Ok in Hrun as ([e g1] & Hcell & Hrun).
    apply bind_Ok in Hrun as ([es g2] & Hrest & Hrun). injection Hrun as _ <-.
    rewrite (IH _ _ Hrest). unfold process_cell in Hcell.
    apply bind_Ok in Hcell as (name & _ & Hcell).
    apply bind_Ok in Hcell as (type & _ & Hcell).
    apply bind_Ok in Hcell as ([s g0] & Hslots & Hcell).
    assert (g1 = g0) as -> by (destruct (gate_function type); by injection Hcell).
    apply cell_slots_draws in Hslots as (attrs' & vs & Hattrs' & Hvs & ->).
    rewrite Hattrs in Hattrs'. injection Hattrs' as <-.
    rewrite <- (Forall2_length _ _ _ (collect_attributes_order cell attrs vs Hvs)).
    by rewrite drop_drop.
Qed.

(** X6. Every cell, whether it is written to the file or dropped for its
    type, takes [max(n, 7) - 1] draws from the random generator, where
    [n] is the number of declared numeric attributes. *)
Theorem generation_draws (data : json) (iteration : nat) (g g' : rng)
    (entries : list gate) :
  generate_random_genlib data iteration g = Ok (entries, g') →
  ∃ attrs cells,
    (getitem data (JStr "information")
       ≫= λ information, getitem information (JStr "attributes")) ≫= py_iter
    = Ok attrs
    ∧ getitem data (JStr "cells") ≫= py_iter = Ok cells
    ∧ g' = drop (length cells
                 * (length (filter (λ attr, is_reserved attr = false) attrs) `max` 7 - 1))
              g.
Proof.
  unfold generate_random_genlib. intros Hgen.
  apply bind_Ok in Hgen as (information & Hinfo & Hgen).
  apply bind_Ok in Hgen as (attributes & Hattributes & Hgen).
  apply bind_Ok in Hgen as (n & Hlen & Hgen).
  apply bind_Ok in Hgen as (cs & Hcs & Hgen).
  apply bind_Ok in Hgen as (cells & Hcells & Hgen).
  assert (∃ attrs, py_iter attributes = Ok attrs) as [attrs Hattrs].
  { destruct attributes; simpl in *; try done; eauto. }
  exists attrs, cells. rewrite Hinfo. simpl. rewrite Hattributes. simpl.
  rewrite Hcs. simpl. repeat split; try done.
  by apply (process_cells_draws attributes iteration cells g g' entries).
Qed.

End ShuffleFacts.

(** ** Cells the generator cannot read *)

Section MalformedCells.
Context `{PyRuntime}.

Lemma collect_attributes_raise (cell : json) (pre post : list json) (attr : json)
    (x : exn) :
  (∃ vs, collect_attributes cell pre = Ok vs) →
  is_reserved attr = false →
  getitem cell attr ≫= py_float = Raise x →
  collect_attributes cell (pre ++ attr :: post) = Raise x.
Proof.
  intros [vs Hpre] Hres Hbad. revert vs Hpre.
  induction pre as [|a pre IH]; intros vs Hpre; simpl in *.
  - rewrite Hres. destruct (getitem cell attr) as [v|]; simpl in *; [|congruence].
    by rewrite Hbad.
  - destruct (is_reserved a); [by eapply IH|].
    destruct (getitem cell a) as [v|]; simpl in *; [|congruence].
    destruct (py_float v) as [f|]; simpl in *; [|congruence].
    destruct (collect_attributes cell pre) as [fs|] eqn:Hfs; simpl in *; [|congruence].
    by rewrite (IH fs).
Qed.

Lemma process_cells_raise (attributes : json) (attrs : list json) (iteration : nat)
    (good rest : list json) (bad : json) (x : exn) :
  py_iter attributes = Ok attrs →
  forallb (cell_ok attrs) good = true →
  (∀ g, process_cell attributes iteration bad g = Raise x) →
  ∀ g, process_cells attributes iteration (good ++ bad :: rest) g = Raise x.
Proof.
  intros Hattrs Hgood Hbad.
  induction good as [|cell good IH]; intros g; simpl in *.
  - by rewrite Hbad.
  - apply andb_prop in Hgood as [Hcell Hgood].
    destruct (process_cell_Ok attributes attrs iteration cell g Hattrs Hcell)
      as (e & g1 & ->). simpl. by rewrite (IH Hgood).
Qed.

(** X7. The first cell with a declared attribute that is missing, or whose
    value [float()] refuses, ends the generation with the exception of
    that attribute (a KeyError for a missing one): the value is not
    padded, and the type of the cell plays no part. *)
Theorem unreadable_cell_raises (top info items : list (string * json))
    (attrs pre post good rest : list json) (attr : json) (x : exn) :
  assoc "information" top = Some (JObj info) →
  assoc "attributes" info = Some (JArr attrs) →
  assoc "cells" top = Some (JArr (good ++ JObj items :: rest)) →
  forallb (cell_ok attrs) good = true →
  is_Some (assoc "cell_name" items) →
  is_Some (assoc "cell_type" items) →
  attrs = pre ++ attr :: post →
  forallb (attribute_ok items) pre = true →
  is_reserved attr = false →
  getitem (JObj items) attr ≫= py_float = Raise x →
  ∀ (iteration : nat) (g : rng),
    generate_random_genlib (JObj top) iteration g = Raise x.
Proof.
  intros Hinfo Hattrs Hcells Hgood [name Hname] [type Htype] -> Hpre Hres Hbad
    iteration g.
  unfold generate_random_genlib. cbn [getitem]. rewrite Hinfo. simpl.
  rewrite Hattrs. simpl. rewrite Hcells. simpl.
  apply (process_cells_raise (JArr (pre ++ attr :: post)) (pre ++ attr :: post));
    [done..|].
  intros g0. unfold process_cell. cbn [getitem]. rewrite Hname, Htype. simpl.
  unfold cell_slots. simpl.
  rewrite (collect_attributes_raise (JObj items) pre post attr x); [done| |done..].
  by apply collect_attributes_Ok.
Qed.

End MalformedCells.

(** ** The text of the candidate library file *)

Lemma append_assoc (s t u : string) :
  ((s +:+ t) +:+ u)%string = (s +:+ (t +:+ u))%string.
Proof.
  induction s as [|a s IH]; [done|]. by rewrite !append_cons, IH.
Qed.

Lemma count_char_app (c : ascii) (s t : string) :
  count_char c (s +:+ t) = count_char c s + count_char c t.
Proof.
  induction s as [|a s IH]; [done|].
  rewrite append_cons. simpl. rewrite IH. lia.
Qed.

Lemma gate_function_one_line (t : json) (function : string) :
  gate_function t = Some function → count_char "010" function = 0.
Proof.
  destruct t as [| | | |t| |]; try done. unfold gate_function.
  repeat match goal with
  | |- context [String.eqb t ?s] => destruct (String.eqb t s); [by intros [= <-]|]
  end.
  done.
Qed.

Section GenlibText.
Context `{PyRuntime}.

(** X8. When neither the text of a float nor a cell name holds a line feed,
    each of the two texts written for an entry is one line, ended by its
    line feed: the file has exactly two lines for each entry. *)
Theorem genlib_two_lines_each (data : json) (iteration : nat) (g g' : rng)
    (entries : list gate) :
  generate_random_genlib data iteration g = Ok (entries, g') →
  (∀ f, count_char "010" (float_repr f) = 0) →
  forallb (λ e, count_char "010" (py_str (gate_name e)) =? 0) entries = true →
  Forall (λ text, ∃ line, text = (line +:+ nl)%string ∧ count_char "010" line = 0)
         (genlib_writes entries)
  ∧ count_char "010" (foldr String.append ""%string (genlib_writes entries))
    = 2 * length entries.
Proof.
  intros Hgen Hrepr Hnames.
  destruct (generate_random_genlib_entries data iteration g g' entries Hgen)
    as (cells & _ & Hentries).
  assert (Forall (λ e, count_char "010" (gate_expr e) = 0) entries) as Hexprs.
  { clear -Hentries. induction Hentries as [|c e cs es [_ (t & _ & Ht)] _ IH];
      constructor; [|done]. by apply (gate_function_one_line t). }
  clear Hgen Hentries. unfold genlib_writes.
  induction entries as [|e entries IH]; [by split; [constructor|]|].
  simpl in Hnames. apply andb_prop in Hnames as [Hname Hnames].
  apply Nat.eqb_eq in Hname. apply Forall_cons in Hexprs as [Hexpr Hexprs].
  destruct (IH Hnames Hexprs) as [IH1 IH2].
  rewrite bind_cons. unfold gate_writes at 1 3. split.
  - constructor; [|constructor; [|done]].
    + exists ("GATE " +:+ py_str (gate_name e) +:+ " "
              +:+ float_repr (area (gate_slots e)) +:+ " " +:+ gate_expr e +:+ ";")%string.
      split; [unfold gate_line; by rewrite !append_assoc|].
      by rewrite !count_char_app, Hname, Hrepr, Hexpr.
    + exists ("    PIN * NONINV " +:+ float_repr (input_load (gate_slots e)) +:+ " "
              +:+ float_repr (max_load (gate_slots e)) +:+ " "
              +:+ float_repr (rise_block_delay (gate_slots e)) +:+ " "
              +:+ float_repr (rise_fanout_delay (gate_slots e)) +:+ " "
              +:+ float_repr (fall_block_delay (gate_slots e)) +:+ " "
              +:+ float_repr (fall_fanout_delay (gate_slots e)))%string.
      split; [unfold pin_line; by rewrite !append_assoc|].
      by rewrite !count_char_app, !Hrepr.
  - cbn [app foldr]. rewrite !count_char_app, IH2.
    unfold gate_line, pin_line.
    rewrite !count_char_app, Hname, !Hrepr, Hexpr. simpl. lia.
Qed.

End GenlibText.

(** ** The order of the costs *)

Lemma SFleb_trans (x y z : float) :
  SFleb x y = true → SFleb y z = true → SFleb x z = true.
Proof.
  unfold SFleb, SFcompare.
  destruct x as [[]|[]| |[] mx ex], y as [[]|[]| |[] my ey], z as [[]|[]| |[] mz ez];
    try done.
  all: rewrite <- ?Pos.compare_cont_spec; simpl.
  all: change (Pos.compare_cont Eq) with Pos.compare.
  all: destruct (Z.compare_spec ex ey), (Z.compare_spec ey ez), (Z.compare_spec ex ez);
    try done; try lia.
  all: destruct (Pos.compare_spec mx my), (Pos.compare_spec my mz),
         (Pos.compare_spec mx mz); simpl; try done; try lia.
Qed.

Lemma SFltb_false_SFleb (x y : float) :
  is_nan x = false → is_nan y = false → SFltb x y = false → SFleb y x = true.
Proof.
  unfold SFltb, SFleb, SFcompare.
  destruct x as [[]|[]| |[] mx ex], y as [[]|[]| |[] my ey]; try done.
  all: intros _ _; change (Pos.compare_cont Eq) with Pos.compare.
  all: destruct (Z.compare_spec ex ey), (Z.compare_spec ey ex); try done; try lia.
  all: destruct (Pos.compare_spec mx my), (Pos.compare_spec my mx);
    simpl; try done; try lia.
Qed.

(** ** Runs that stop early *)

Section EarlyEnd.
Context `{PyRuntime}.

(** X9. When the first conversion exits with a status other than 0, no
    iteration is attempted: the generator is never called, the two error
    lines and the elapsed time are all the run prints. *)
Theorem failed_setup_runs_nothing (args : arguments) (w : world) (data : json) :
  library_data w = Ok data →
  setup_alarm w = false →
  convert1_returncode w ≠ 0%Z →
  main args w
  = ({| best_cost := float_inf;
        gen := seed w;
        log := [Exec ("python3 scripts/convert_netlist_1.py " +:+ netlist args
                      +:+ " " +:+ "release/net_m/design_m.v");
                Print (Text "Error running convert_netlist_1.py");
                Print (Text "Failed to convert netlist to ABC format");
                Print (MsgElapsed (elapsed_time w))] |},
     SetupFailed).
Proof.
  intros Hdata Halarm Hrc. apply Z.eqb_neq in Hrc.
  unfold main, main_try. rewrite bind_run, Hdata. unfold lift. rewrite bind_run.
  unfold convert_netlist_to_abc_format, subprocess_run. rewrite !bind_run.
  rewrite Halarm. cbn [emit mret M_ret]. rewrite Hrc. rewrite bind_run. done.
Qed.

Lemma run_prefix_raised (args : arguments) (w : world) (k j : nat) (e : exn) :
  (run_prefix args w k).2 = Raise e → k ≤ j → run_prefix args w j = run_prefix args w k.
Proof.
  intros Hraise Hle. induction Hle as [|j Hle IH]; [done|].
  destruct (run_prefix_step args w j) as [->|(data & conv & Hok & _)]; [done|].
  rewrite IH, Hraise in Hok. done.
Qed.

(** X10. An exception raised in the setup or in an iteration ends the run
    there: later iterations never start, the best cost stays what it was
    at that point, and the run prints after it the timeout message, when
    the exception is the alarm, and the elapsed time. *)
Theorem exception_ends_run (args : arguments) (w : world) (k : nat) (e : exn) :
  k ≤ num_iterations →
  (run_prefix args w k).2 = Raise e →
  (main args w).2 = (if decide (e = TimeoutError) then DeadlineExpired else Crashed e)
  ∧ best_cost (main args w).1 = best_after args w k
  ∧ log (main args w).1
    = log_after args w k
      ++ (if decide (e = TimeoutError)
          then [Print (Text "The operation timed out")] else [])
      ++ [Print (MsgElapsed (elapsed_time w))].
Proof.
  intros Hk Hraise. unfold main, best_after, log_after.
  rewrite main_try_run, (run_prefix_raised args w k num_iterations e Hraise Hk).
  destruct (run_prefix args w k) as [st r]. simpl in Hraise. subst r.
  destruct e; simpl; repeat split; by rewrite <- ?app_assoc.
Qed.

End EarlyEnd.

(** ** The best result and the log *)

Lemma evaluated_costs_app (l1 l2 : list event) :
  evaluated_costs (l1 ++ l2) = evaluated_costs l1 ++ evaluated_costs l2.
Proof. apply omap_app. Qed.

Lemma renames_app (l1 l2 : list event) : renames (l1 ++ l2) = renames l1 ++ renames l2.
Proof. apply omap_app. Qed.

Lemma new_bests_app (l1 l2 : list event) :
  new_bests (l1 ++ l2) = new_bests l1 ++ new_bests l2.
Proof. apply omap_app. Qed.

Lemma routine_no_cost (evs : list event) :
  forallb is_routine evs = true → evaluated_costs evs = [].
Proof.
  induction evs as [|ev evs IH]; [done|]. simpl.
  intros [Hev Hevs]%andb_prop. unfold evaluated_costs in *. cbn [omap list_omap].
  rewrite (IH Hevs). by destruct ev as [[]| | |].
Qed.

Lemma routine_no_rename (evs : list event) :
  forallb is_routine evs = true → renames evs = [].
Proof.
  induction evs as [|ev evs IH]; [done|]. simpl.
  intros [Hev Hevs]%andb_prop. unfold renames in *. cbn [omap list_omap].
  rewrite (IH Hevs). by destruct ev as [[]| | |].
Qed.

Lemma routine_no_new_best (evs : list event) :
  forallb is_routine evs = true → new_bests evs = [].
Proof.
  induction evs as [|ev evs IH]; [done|]. simpl.
  intros [Hev Hevs]%andb_prop. unfold new_bests in *. cbn [omap list_omap].
  rewrite (IH Hevs). by destruct ev as [[]| | |].
Qed.

Lemma prefix_promotion_no_cost (args : arguments) (c : float) (post : list event) :
  post `prefix_of` promotion args c → evaluated_costs post = [].
Proof.
  intros [k Hk]. unfold promotion in Hk.
  destruct post as [|? [|? [|? [|? post]]]]; simplify_eq/=; done.
Qed.

Section BestFacts.
Context `{PyRuntime}.

Lemma run_prefix_0 (args : arguments) (w : world) :
  ∃ evs, extend (initial_state w) evs (run_prefix args w 0).1
         ∧ forallb is_routine evs = true.
Proof.
  unfold run_prefix. rewrite bind_run. unfold lift.
  destruct (library_data w) as [data|e].
  2:{ exists []. split; [apply extend_refl|done]. }
  destruct (quiet_convert_netlist_to_abc_format w (netlist args) (initial_state w))
    as (evs & Hext & Hr).
  rewrite bind_run.
  destruct (convert_netlist_to_abc_format w (netlist args) (initial_state w))
    as [st0 [[conv|]|e]]; by exists evs.
Qed.

(** X11. After any number of iterations the best cost is not NaN, is at most
    every cost evaluated so far that is not NaN, and is positive infinity
    or one of the costs evaluated so far. *)
Theorem best_is_least_cost (args : arguments) (w : world) (k : nat) :
  is_nan (best_after args w k) = false
  ∧ Forall (λ c, is_nan c = true ∨ SFleb (best_after args w k) c = true)
      (evaluated_costs (log_after args w k))
  ∧ (best_after args w k = float_inf
     ∨ best_after args w k ∈ evaluated_costs (log_after args w k)).
Proof.
  split; [apply best_after_not_nan|].
  induction k as [|k [IHall IHin]].
  - destruct (run_prefix_0 args w) as (evs & [Hb Hl] & Hr).
    unfold best_after, log_after. rewrite Hb, Hl. simpl.
    rewrite (routine_no_cost evs Hr). split; [constructor|by left].
  - pose proof (best_after_not_nan args w k) as Hnan.
    destruct (run_prefix_post args w k)
      as (evs & Hlog & [[Hb Hr]|(pre & c & post & -> & Hr & Hcmp)]);
      unfold best_after, log_after in *; rewrite Hlog, evaluated_costs_app.
    + rewrite (routine_no_cost evs Hr), app_nil_r, Hb. by split.
    + rewrite evaluated_costs_app, (routine_no_cost pre Hr).
      change (evaluated_costs (Print (MsgCost (k + 1) c) :: post))
        with (c :: evaluated_costs post).
      assert (evaluated_costs post = []) as ->.
      { apply (prefix_promotion_no_cost args c).
        destruct (SFltb c _); [by destruct Hcmp as (_ & ? & _)|].
        destruct Hcmp as (_ & -> & _). apply prefix_nil. }
      simpl.
      destruct (SFltb c (best_cost (run_prefix args w k).1)) eqn:Hlt.
      * destruct Hcmp as (-> & _). split.
        -- apply Forall_app. split.
           ++ eapply Forall_impl; [exact IHall|]. intros c' [?|Hle]; [by left|].
              right. eapply SFleb_trans; [by apply SFltb_SFleb|done].
           ++ constructor; [|constructor]. right.
              apply SFleb_refl. by apply SFltb_not_nan in Hlt.
        -- right. apply elem_of_app. right. by left.
      * destruct Hcmp as (-> & _). split.
        -- apply Forall_app. split; [done|]. constructor; [|constructor].
           destruct (is_nan c) eqn:Hc; [by left|]. right.
           by apply SFltb_false_SFleb.
        -- destruct IHin as [?|Hin]; [by left|]. right. apply elem_of_app. by left.
Qed.

Lemma run_prefix_Ok_pred (args : arguments) (w : world) (k : nat) :
  (run_prefix args w (S k)).2 = Ok tt → (run_prefix args w k).2 = Ok tt.
Proof.
  intros Hok. destruct (run_prefix_step args w k) as [<-|(_ & _ & ? & _)]; done.
Qed.

(** X12. As long as nothing is raised, the files and the cost of the best
    result go together: the renames come in pairs, the converted netlist
    to the output path and then the candidate genlib to the best genlib,
    one pair for each line [New best netlist found], and the best cost is
    the cost of the last of these lines. *)
Theorem best_files_follow_best_cost (args : arguments) (w : world) (k : nat) :
  (run_prefix args w k).2 = Ok tt →
  renames (log_after args w k)
  = new_bests (log_after args w k)
      ≫= (λ _, [(converted_design, output args); (genlib_filename, best_genlib)])
  ∧ default float_inf (last (new_bests (log_after args w k))) = best_after args w k.
Proof.
  induction k as [|k IH]; intros Hok.
  - destruct (run_prefix_0 args w) as (evs & [Hb Hl] & Hr).
    unfold best_after, log_after. rewrite Hb, Hl. simpl.
    by rewrite (routine_no_rename evs Hr), (routine_no_new_best evs Hr).
  - destruct (IH (run_prefix_Ok_pred args w k Hok)) as [IHr IHb].
    destruct (run_prefix_post args w k)
      as (evs & Hlog & [[Hb Hr]|(pre & c & post & -> & Hr & Hcmp)]);
      unfold best_after, log_after in *; rewrite Hlog, renames_app, new_bests_app.
    + by rewrite (routine_no_rename evs Hr), (routine_no_new_best evs Hr), !app_nil_r, Hb.
    + rewrite renames_app, new_bests_app.
      rewrite (routine_no_rename pre Hr), (routine_no_new_best pre Hr).
      rewrite Hok in Hcmp.
      destruct (SFltb c (best_cost (run_prefix args w k).1)).
      * destruct Hcmp as (-> & _ & ->). simpl. rewrite bind_app, IHr. simpl.
        split; [done|]. by rewrite last_snoc.
      * destruct Hcmp as (-> & -> & _). simpl. by rewrite !app_nil_r.
Qed.

End BestFacts.

(** ** The order of the iterations *)

Lemma emits_ret (P : event → bool) {A} (a : A) : emits P (mret a).
Proof. intros st. exists []. by rewrite app_nil_r. Qed.

Lemma emits_raise (P : event → bool) {A} (e : exn) : emits P (raise e : M A).
Proof. intros st. exists []. by rewrite app_nil_r. Qed.

Lemma emits_lift (P : event → bool) {A} (r : res A) : emits P (lift r).
Proof. intros st. exists []. by rewrite app_nil_r. Qed.

Lemma emits_get_best_cost (P : event → bool) : emits P get_best_cost.
Proof. intros st. exists []. by rewrite app_nil_r. Qed.

Lemma emits_set_best_cost (P : event → bool) (c : float) : emits P (set_best_cost c).
Proof. intros st. exists []. by rewrite app_nil_r. Qed.

Lemma emits_emit (P : event → bool) (ev : event) : P ev = true → emits P (emit ev).
Proof. intros Hev st. exists [ev]. simpl. by rewrite Hev. Qed.

Lemma emits_bind (P : event → bool) {A B} (m : M A) (f : A → M B) :
  emits P m → (∀ a, emits P (f a)) → emits P (m ≫= f).
Proof.
  intros Hm Hf st. rewrite bind_run.
  destruct (Hm st) as (evs1 & Hl1 & Hr1).
  destruct (m st) as [st1 [a|e]]; simpl in *.
  - destruct (Hf a st1) as (evs2 & Hl2 & Hr2).
    exists (evs1 ++ evs2). rewrite Hl2, Hl1, app_assoc, forallb_app, Hr1, Hr2. done.
  - by exists evs1.
Qed.

Ltac emits :=
  repeat first
    [ apply emits_ret | apply emits_raise | apply emits_lift
    | apply emits_get_best_cost | apply emits_set_best_cost
    | apply emits_emit; reflexivity
    | apply emits_bind; [|intros ?]
    | match goal with
      | |- emits _ (if ?b then _ else _) => destruct b
      | |- emits _ (match ?x with _ => _ end) => destruct x
      end ].

Section IterationOrder.
Context `{PyRuntime}.

Lemma emits_after_iteration_line (args : arguments) (data : json)
    (converted_netlist_abc : string) (e : iter_env) (iteration : nat) :
  ∃ rest : M unit,
    emits is_other_line rest
    ∧ iteration_body args data converted_netlist_abc e iteration
      = (print (MsgIteration (iteration + 1));; rest).
Proof.
  eexists. split; [|reflexivity].
  apply emits_bind.
  { unfold generate, at_stage, run_generator.
    apply emits_bind; [emits|intros ?].
    intros st. destruct (generate_random_genlib data iteration (gen st)) as [[? ?]|].
    - by eexists [_].
    - exists []. by rewrite app_nil_r. }
  intros genlib. unfold create_abc_script. apply emits_bind; [emits|intros [? ?]].
  apply emits_bind.
  { unfold run_abc_script, subprocess_run, print. emits. }
  intros ok. destruct ok; simpl; [|unfold print; emits].
  apply emits_bind.
  { unfold convert_netlist_to_output_format, subprocess_run, print. emits. }
  intros [converted_netlist|]; [|unfold print; emits].
  apply emits_bind.
  { unfold estimate_cost, subprocess_run, print. emits. }
  intros [c|]; [|unfold print; emits].
  unfold compare_and_promote, at_stage, os_rename, print. emits.
Qed.

Lemma iteration_lines_app (l1 l2 : list event) :
  iteration_lines (l1 ++ l2) = iteration_lines l1 ++ iteration_lines l2.
Proof. apply omap_app. Qed.

Lemma other_line_no_iteration (evs : list event) :
  forallb is_other_line evs = true → iteration_lines evs = [].
Proof.
  induction evs as [|ev evs IH]; [done|]. simpl.
  intros [Hev Hevs]%andb_prop. unfold iteration_lines in *. cbn [omap list_omap].
  rewrite (IH Hevs). by destruct ev as [[]| | |].
Qed.

Lemma iteration_body_line (args : arguments) (data : json)
    (converted_netlist_abc : string) (e : iter_env) (iteration : nat) (st : state) :
  iteration_lines
    (log (iteration_body args data converted_netlist_abc e iteration st).1)
  = iteration_lines (log st) ++ [iteration + 1].
Proof.
  destruct (emits_after_iteration_line args data converted_netlist_abc e iteration)
    as (rest & Hrest & ->).
  rewrite bind_run. simpl.
  match goal with |- context [rest ?s] => destruct (Hrest s) as (evs & -> & Hevs) end.
  simpl. rewrite !iteration_lines_app, (other_line_no_iteration evs Hevs).
  by rewrite app_nil_r.
Qed.

Lemma search_loop_lines (args : arguments) (data : json) (converted_netlist_abc : string)
    (w : world) (k i : nat) (st : state) :
  ∃ j, j ≤ k
    ∧ iteration_lines (log (search_loop args data converted_netlist_abc w k i st).1)
      = iteration_lines (log st) ++ seq (i + 1) j
    ∧ match (search_loop args data converted_netlist_abc w k i st).2 with
      | Ok _ => j = k
      | Raise _ => True
      end.
Proof.
  revert i st. induction k as [|k IH]; intros i st.
  - exists 0. simpl. by rewrite app_nil_r.
  - cbn [search_loop]. rewrite bind_run.
    pose proof (iteration_body_line args data converted_netlist_abc (iter w i) i st)
      as Hline.
    destruct (iteration_body _ _ _ _ _ st) as [st1 [[]|x]]; simpl in Hline.
    + destruct (IH (S i) st1) as (j & Hj & Hlines & Hres).
      exists (S j). split; [lia|]. rewrite Hlines, Hline, <- app_assoc. split; [done|].
      destruct (search_loop _ _ _ _ _ _ st1).2; [by f_equal|done].
    + exists 1. split; [lia|]. simpl. by rewrite Hline.
Qed.

(** X13. The lines [Iteration n] of a run are numbered 1, 2, 3, ... without a
    gap or a repetition, up to 3000 at most; all 3000 are there when the
    run exhausts its iterations, and none when the setup fails. *)
Theorem iterations_in_order (args : arguments) (w : world) :
  ∃ j, j ≤ num_iterations
    ∧ iteration_lines (log (main args w).1) = seq 1 j
    ∧ match (main args w).2 with
      | Exhausted => j = num_iterations
      | SetupFailed => j = 0
      | DeadlineExpired | Crashed _ => True
      end.
Proof.
  unfold main, main_try. generalize num_iterations as n. intros n.
  rewrite bind_run. unfold lift.
  destruct (library_data w) as [data|e].
  2:{ exists 0. split; [lia|]. by destruct e. }
  rewrite bind_run.
  assert (emits is_other_line (convert_netlist_to_abc_format w (netlist args))) as Hconv.
  { unfold convert_netlist_to_abc_format, subprocess_run, print. emits. }
  destruct (Hconv (initial_state w)) as (evs0 & Hl0 & Hr0).
  apply other_line_no_iteration in Hr0. simpl in Hl0.
  destruct (convert_netlist_to_abc_format w (netlist args) (initial_state w))
    as [st0 [[conv|]|e]]; simpl in Hl0.
  - rewrite bind_run.
    destruct (search_loop_lines args data conv w n 0 st0) as (j & Hj & Hlines & Hres).
    rewrite Hl0, Hr0 in Hlines. simpl in Hlines.
    destruct (search_loop args data conv w n 0 st0) as [st [[]|e]]; simpl in *.
    + exists j. split; [done|]. rewrite !iteration_lines_app, Hlines.
      change (iteration_lines [_]) with (@nil nat). by rewrite !app_nil_r.
    + exists j. split; [done|].
      destruct e; simpl; rewrite ?iteration_lines_app, Hlines;
        change (iteration_lines [_]) with (@nil nat); by rewrite ?app_nil_r.
  - exists 0. split; [lia|]. simpl. by rewrite Hl0, !iteration_lines_app, Hr0.
  - exists 0. split; [lia|].
    destruct e; simpl; by rewrite Hl0, !iteration_lines_app, Hr0.
Qed.

End IterationOrder.

(** ** The further properties on sample inputs *)

Lemma cost_from_first_line_witness :
  (string_forallb (λ a, negb (is_line_end a)) "cost = 2.5" = true
   ∧ is_line_end "010" = true)
  ∧ parse_cost (H:=sample_runtime) ("cost = 2.5" +:+ String "010" "cost = 7")
    = parse_cost (H:=sample_runtime) "cost = 2.5".
Proof.
  split; [split; reflexivity|].
  apply (cost_from_first_line (H:=sample_runtime) "cost = 2.5" "cost = 7" "010");
    reflexivity.
Defined.

Lemma cost_of_marked_line_witness :
  is_token "2.5" = true
  ∧ parse_cost (H:=sample_runtime) ("cost = " +:+ "2.5")
    = match float_of_str (PyRuntime:=sample_runtime) "2.5" with
      | Some cost => Ok (Some cost)
      | None => Raise ValueError
      end.
Proof.
  split; [reflexivity|].
  apply (cost_of_marked_line (H:=sample_runtime) "2.5"). reflexivity.
Defined.

Lemma cost_of_blank_line_witness :
  string_forallb is_space ("  " +:+ nl) = true
  ∧ parse_cost (H:=sample_runtime) ("cost = " +:+ ("  " +:+ nl)) = Ok None.
Proof.
  split; [reflexivity|].
  apply (cost_of_blank_line (H:=sample_runtime) ("  " +:+ nl)). reflexivity.
Defined.

Lemma slots_hold_declared_values_witness :
  (py_iter (JArr sample_attributes) = Ok sample_attributes
   ∧ collect_attributes (H:=sample_runtime) sample_and_cell sample_attributes
     = Ok sample_values)
  ∧ ∃ s g',
      cell_slots (H:=sample_runtime) (JArr sample_attributes) 2 sample_and_cell [1; 2]
      = Ok (s, g')
      ∧ slot_values s ⊆+ pad_attributes sample_values
      ∧ match decide (length sample_values ≤ 7) with
        | left _ =>
            slot_values s
            ≡ₚ sample_values ++ replicate (7 - length sample_values) float_one
        | right _ => slot_values s ⊆+ sample_values
        end.
Proof.
  split; [split; reflexivity|].
  apply (slots_hold_declared_values (H:=sample_runtime) (JArr sample_attributes) 2
           sample_and_cell [1; 2] sample_attributes sample_values); reflexivity.
Defined.

Lemma generation_draws_witness :
  generate_random_genlib (H:=sample_runtime) sample_library 0 long_seed
  = Ok (long_seed_entries, [8; 4])
  ∧ ∃ attrs cells,
      (getitem sample_library (JStr "information")
         ≫= λ information, getitem information (JStr "attributes")) ≫= py_iter
      = Ok attrs
      ∧ getitem sample_library (JStr "cells") ≫= py_iter = Ok cells
      ∧ [8; 4]
        = drop (length cells
                * (length (filter (λ attr, is_reserved attr = false) attrs) `max` 7 - 1))
            long_seed.
Proof.
  split; [vm_compute; reflexivity|].
  apply (generation_draws (H:=sample_runtime) sample_library 0 long_seed [8; 4]
           long_seed_entries).
  vm_compute; reflexivity.
Defined.

Lemma unreadable_cell_raises_witness :
  (assoc "information" broken_top = Some (JObj [("attributes"%string, JArr sample_attributes)])
   ∧ assoc "attributes" [("attributes"%string, JArr sample_attributes)]
     = Some (JArr sample_attributes)
   ∧ assoc "cells" broken_top
     = Some (JArr ([sample_and_cell] ++ JObj broken_items :: [sample_and_cell]))
   ∧ forallb (cell_ok (H:=sample_runtime) sample_attributes) [sample_and_cell] = true
   ∧ is_Some (assoc "cell_name" broken_items)
   ∧ is_Some (assoc "cell_type" broken_items)
   ∧ sample_attributes
     = [JStr "cell_name"; JStr "cell_type"; JStr "area"] ++ JStr "delay" :: []
   ∧ forallb (attribute_ok (H:=sample_runtime) broken_items)
       [JStr "cell_name"; JStr "cell_type"; JStr "area"] = true
   ∧ is_reserved (JStr "delay") = false
   ∧ getitem (JObj broken_items) (JStr "delay") ≫= py_float (H:=sample_runtime)
     = Raise KeyError)
  ∧ ∀ (iteration : nat) (g : rng),
      generate_random_genlib (H:=sample_runtime) (JObj broken_top) iteration g
      = Raise KeyError.
Proof.
  split; [repeat split; try reflexivity; by eexists|].
  apply (unreadable_cell_raises (H:=sample_runtime) broken_top
           [("attributes"%string, JArr sample_attributes)] broken_items
           sample_attributes [JStr "cell_name"; JStr "cell_type"; JStr "area"] []
           [sample_and_cell] [sample_and_cell] (JStr "delay") KeyError);
    try reflexivity; by eexists.
Defined.

Lemma genlib_two_lines_each_witness :
  (generate_random_genlib (H:=plain_runtime) sample_library 0 [] = Ok (sample_entries, [])
   ∧ (∀ f, count_char "010" (float_repr (PyRuntime:=plain_runtime) f) = 0)
   ∧ forallb (λ e, count_char "010" (py_str (H:=plain_runtime) (gate_name e)) =? 0)
       sample_entries = true)
  ∧ Forall (λ text, ∃ line, text = (line +:+ nl)%string ∧ count_char "010" line = 0)
      (genlib_writes (H:=plain_runtime) sample_entries)
  ∧ count_char "010"
      (foldr String.append ""%string (genlib_writes (H:=plain_runtime) sample_entries))
    = 2 * length sample_entries.
Proof.
  split; [split; [vm_compute; reflexivity|split; [intros; reflexivity|reflexivity]]|].
  apply (genlib_two_lines_each (H:=plain_runtime) sample_library 0 [] []);
    [vm_compute; reflexivity|intros; reflexivity|reflexivity].
Defined.

Lemma failed_setup_runs_nothing_witness :
  (library_data failed_setup_world = Ok sample_library
   ∧ setup_alarm failed_setup_world = false
   ∧ convert1_returncode failed_setup_world ≠ 0%Z)
  ∧ main (H:=sample_runtime) sample_arguments failed_setup_world
    = ({| best_cost := float_inf;
          gen := seed failed_setup_world;
          log := [Exec ("python3 scripts/convert_netlist_1.py "
                        +:+ netlist sample_arguments
                        +:+ " " +:+ "release/net_m/design_m.v");
                  Print (Text "Error running convert_netlist_1.py");
                  Print (Text "Failed to convert netlist to ABC format");
                  Print (MsgElapsed (elapsed_time failed_setup_world))] |},
       SetupFailed).
Proof.
  split; [repeat split; done|].
  apply (failed_setup_runs_nothing (H:=sample_runtime) sample_arguments
           failed_setup_world sample_library); done.
Defined.

Lemma exception_ends_run_witness :
  (1 ≤ num_iterations
   ∧ (run_prefix (H:=sample_runtime) sample_arguments (sample_world alarm_in_mapping) 1).2
     = Raise TimeoutError)
  ∧ (main (H:=sample_runtime) sample_arguments (sample_world alarm_in_mapping)).2
    = (if decide (TimeoutError = TimeoutError) then DeadlineExpired
       else Crashed TimeoutError)
  ∧ best_cost (main (H:=sample_runtime) sample_arguments (sample_world alarm_in_mapping)).1
    = best_after (H:=sample_runtime) sample_arguments (sample_world alarm_in_mapping) 1
  ∧ log (main (H:=sample_runtime) sample_arguments (sample_world alarm_in_mapping)).1
    = log_after (H:=sample_runtime) sample_arguments (sample_world alarm_in_mapping) 1
      ++ (if decide (TimeoutError = TimeoutError)
          then [Print (Text "The operation timed out")] else [])
      ++ [Print (MsgElapsed (elapsed_time (sample_world alarm_in_mapping)))].
Proof.
  split; [split; [unfold num_iterations; lia|vm_compute; reflexivity]|].
  apply (exception_ends_run (H:=sample_runtime) sample_arguments
           (sample_world alarm_in_mapping) 1 TimeoutError);
    [unfold num_iterations; lia|vm_compute; reflexivity].
Defined.

Lemma best_files_follow_best_cost_witness :
  (run_prefix (H:=sample_runtime) sample_arguments two_costs_world 3).2 = Ok tt
  ∧ renames (log_after (H:=sample_runtime) sample_arguments two_costs_world 3)
    = new_bests (log_after (H:=sample_runtime) sample_arguments two_costs_world 3)
        ≫= (λ _, [(converted_design, output sample_arguments);
                  (genlib_filename, best_genlib)])
  ∧ default float_inf
      (last (new_bests (log_after (H:=sample_runtime) sample_arguments two_costs_world 3)))
    = best_after (H:=sample_runtime) sample_arguments two_costs_world 3.
Proof.
  split; [vm_compute; reflexivity|].
  apply (best_files_follow_best_cost (H:=sample_runtime) sample_arguments
           two_costs_world 3).
  vm_compute; reflexivity.
Defined.
